(** * Serpens client: HTTP transport and OpenID credential session

    A shallow embedding of [connection.py] (class [SerpensConnectionManager])
    and [admin.py] (class [SerpensOpenIDConnection]).

    Python objects are records whose fields are the instance attributes;
    methods are computations in a state-and-exception monad [Py] that
    threads [self] and the [World].  The [World] holds what is shared or
    external: the store of header dictionaries (dictionaries are
    references in Python, so two instances may alias one mapping), the
    wall clock read by [datetime.now()], and the trace of calls made to
    the token endpoint and to the network.

    The token endpoint client ([serpens_openid.py]) and the network are
    the environment: an [Env] answers every call from the history of
    calls.  Time passes in external calls only.  Not modelled: the retry
    adapters and proxies mounted on the [requests] session, [__del__],
    and the range limits of [datetime] and [timedelta]. *)

From Stdlib Require Import ZArith QArith Floats Lia.
From stdpp Require Import base option list gmap strings.

Local Open Scope string_scope.
Local Open Scope list_scope.
Local Open Scope Z_scope.

(** ** Python values, exceptions and results *)

(** Scalar values found in a token dictionary or carried by a request. *)
Inductive pyval :=
| PyNone
| PyInt (z : Z)
| PyFloat (x : float)
| PyStr (s : string).

Abbreviation pydict := (gmap string pyval).
Abbreviation headers_dict := (gmap string string).

(** Modelled from the spec: [exceptions.py] is not part of the sources;
    [SerpensPostError] is the structured token-endpoint error of the
    TokenService contract, with the two attributes [response_code] and
    [response_body] that [refresh_token] reads.  The other constructors
    are the built-in exceptions the modelled statements can raise. *)
Inductive exn :=
| AttributeError (attr : string)
| KeyError (key : string)
| TypeError (msg : string)
| ValueError (msg : string)
| OverflowError (msg : string)
| SerpensPostError (response_code : Z) (response_body : string)
| RequestException (kind : string)
| OtherException (name : string)
| KeyboardInterrupt.

(** [except Exception] catches every class but the ones deriving from
    [BaseException] directly. *)
Definition is_Exception (e : exn) : bool :=
  match e with
  | KeyboardInterrupt => false
  | _ => true
  end.

Definition is_SerpensPostError (e : exn) : bool :=
  match e with
  | SerpensPostError _ _ => true
  | _ => false
  end.

Inductive result (A : Type) :=
| Returns (a : A)
| Raises (e : exn).
Arguments Returns {A} a.
Arguments Raises {A} e.

(** Truth value of an optional string ([None] and [""] are false). *)
Definition truthy (o : option string) : bool :=
  match o with
  | Some (String _ _) => true
  | _ => false
  end.

(** Truth value of an optional dictionary ([None] and [{}] are false). *)
Definition truthy_dict (o : option pydict) : bool :=
  match o with
  | Some d => negb (bool_decide (d = ∅))
  | None => false
  end.

(** [needle in haystack] on byte strings. *)
Fixpoint contains (needle haystack : string) : bool :=
  String.prefix needle haystack ||
  match haystack with
  | EmptyString => false
  | String _ rest => contains needle rest
  end.

(** ** Requests, responses and the environment *)

(** The [data] argument of POST, PUT and DELETE. *)
Inductive pydata :=
| DataNone
| DataStr (s : string)
| DataDict (kv : list (string * string)).

Definition truthy_data (d : pydata) : bool :=
  match d with
  | DataNone => false
  | DataStr s => truthy (Some s)
  | DataDict kv => match kv with [] => false | _ => true end
  end.

(** What a verb hands to [requests]: the method, the joined URL, the
    keyword arguments, and a reading of [self.headers], [self.timeout]
    and [self.verify] at the time of the call. *)
Record Request := {
  rq_method : string;
  rq_url : string;
  rq_params : list (string * string);
  rq_data : option pydata;
  rq_headers : headers_dict;
  rq_timeout : Z;
  rq_verify : bool
}.

Record Response := {
  status_code : Z;
  resp_headers : list (string * string);
  content : string
}.

(** Modelled from the spec: [serpens_openid.py] is not part of the
    sources; a [SerpensOpenID] client is represented by the arguments the
    session constructs it with, and its two methods [token] and
    [refresh_token] are the TokenService operations [acquire] and
    [refresh], answered by the environment. *)
Record SerpensOpenID := {
  oid_server_url : string;
  oid_client_id : option string;
  oid_realm_name : string;
  oid_verify : bool;
  oid_client_secret_key : option string;
  oid_timeout : Z
}.

(** The trace records every call that leaves the session: TokenService
    calls and HTTP requests.  [EvGetToken] marks each entry into
    [get_token], so that full acquisitions can be counted even when no
    grant is configured and no TokenService call results. *)
Inductive event :=
| EvGetToken
| EvTokenCall (client : SerpensOpenID) (username password : option string)
              (grant_type : list string) (totp : option string)
| EvRefreshCall (client : SerpensOpenID) (refresh_token : pyval)
| EvHttp (rq : Request).

Definition loc := positive.

Record World := {
  heap : gmap loc headers_dict;
  clock : Z;
  trace : list event
}.

(** The environment answers each external call from the history of
    calls so far (the call being answered is the last event), and says
    how much time the call took, in microseconds.  [urljoin] is the
    library function of [urllib.parse]. *)
Record Env := {
  urljoin : string -> string -> string;
  token_service : list event -> result pydict;
  network : list event -> result Response;
  elapsed : list event -> Z
}.

(** ** The monad of method bodies *)

Record Run (Self A : Type) := MkRun {
  value : result A;
  self_after : Self;
  world_after : World
}.
Arguments MkRun {Self A} value self_after world_after.
Arguments value {Self A} r.
Arguments self_after {Self A} r.
Arguments world_after {Self A} r.

Definition Py (Self A : Type) : Type := Self -> World -> Run Self A.

Section Monad.
Context {Self : Type}.

Definition ret {A} (a : A) : Py Self A :=
  fun s w => MkRun (Returns a) s w.

Definition raise {A} (e : exn) : Py Self A :=
  fun s w => MkRun (Raises e) s w.

Definition bind {A B} (m : Py Self A) (k : A -> Py Self B) : Py Self B :=
  fun s w =>
    match m s w with
    | MkRun (Returns a) s' w' => k a s' w'
    | MkRun (Raises e) s' w' => MkRun (Raises e) s' w'
    end.

(** [try: body except C as e: handler e] where [catches] tells the
    exceptions of class [C]; the others pass through. *)
Definition try_except {A} (body : Py Self A) (catches : exn -> bool)
    (handler : exn -> Py Self A) : Py Self A :=
  fun s w =>
    match body s w with
    | MkRun (Raises e) s' w' =>
        if catches e then handler e s' w' else MkRun (Raises e) s' w'
    | r => r
    end.

(** Read an attribute of [self]. *)
Definition gets {A} (f : Self -> A) : Py Self A :=
  fun s w => MkRun (Returns (f s)) s w.

(** Assign an attribute of [self]. *)
Definition assign (f : Self -> Self) : Py Self unit :=
  fun s w => MkRun (Returns tt) (f s) w.

(** [datetime.now()], in microseconds. *)
Definition now : Py Self Z :=
  fun s w => MkRun (Returns (clock w)) s w.

(** Append an event to the trace without leaving the session. *)
Definition log (ev : event) : Py Self unit :=
  fun s w =>
    MkRun (Returns tt) s
      {| heap := heap w; clock := clock w; trace := trace w ++ [ev] |}.

(** An external call: it is recorded, it takes time, and the
    environment decides whether it returns or raises. *)
Definition extern {A} (dt : list event -> Z)
    (oracle : list event -> result A) (ev : event) : Py Self A :=
  fun s w =>
    let h := trace w ++ [ev] in
    MkRun (oracle h) s
      {| heap := heap w; clock := clock w + dt h; trace := h |}.

(** A dictionary display [{...}] creates a new mapping in the store. *)
Definition new_dict (d : headers_dict) : Py Self loc :=
  fun s w =>
    let l := fresh (dom (heap w)) in
    MkRun (Returns l) s
      {| heap := <[l := d]> (heap w); clock := clock w; trace := trace w |}.

Definition read_dict (l : loc) : Py Self headers_dict :=
  fun s w => MkRun (Returns (default ∅ (heap w !! l))) s w.

Definition update_dict (l : loc) (f : headers_dict -> headers_dict)
    : Py Self unit :=
  fun s w =>
    MkRun (Returns tt) s
      {| heap := <[l := f (default ∅ (heap w !! l))]> (heap w);
         clock := clock w; trace := trace w |}.
End Monad.

Notation "x <- m ;; k" := (bind m (fun x => k))
  (at level 100, m at next level, right associativity).
Notation "m ;;; k" := (bind m (fun _ => k))
  (at level 100, right associativity).

(** ** [connection.py]: class [SerpensConnectionManager] *)

(** The four verbs of the HTTP surface. *)
Inductive verb := GET | POST | PUT | DELETE.

(** The instance attributes.  The [requests.Session] held in [_s], with
    its pool, retry adapters and proxies, is the [network] of the
    environment. *)
Record SerpensConnectionManager := {
  _base_url : string;
  _headers : loc;
  _timeout : Z;
  _verify : bool
}.

(** The dictionary [{}] that is the default value of the parameter
    [headers] of [__init__]: a default value is evaluated once, when the
    [def] statement runs, so this one mapping exists in the store from
    the import of the module on. *)
Definition default_headers : loc := 1%positive.

Definition module_imported : World :=
  {| heap := {[ default_headers := ∅ ]}; clock := 0; trace := [] |}.

Module ConnectionManager.

Definition Self := SerpensConnectionManager.

Definition set_base_url (v : string) (s : Self) : Self :=
  {| _base_url := v; _headers := _headers s;
     _timeout := _timeout s; _verify := _verify s |}.
Definition set_headers (v : loc) (s : Self) : Self :=
  {| _base_url := _base_url s; _headers := v;
     _timeout := _timeout s; _verify := _verify s |}.
Definition set_timeout (v : Z) (s : Self) : Self :=
  {| _base_url := _base_url s; _headers := _headers s;
     _timeout := v; _verify := _verify s |}.
Definition set_verify (v : bool) (s : Self) : Self :=
  {| _base_url := _base_url s; _headers := _headers s;
     _timeout := _timeout s; _verify := v |}.

(** [__init__(self, base_url, headers={}, timeout=60, verify=True)];
    an omitted argument is [None] here and takes its default. *)
Definition __init__ (base_url : string) (headers : option loc)
    (timeout : option Z) (verify : option bool) : Py Self unit :=
  assign (set_base_url base_url) ;;;
  assign (set_headers (default default_headers headers)) ;;;
  assign (set_timeout (default 60 timeout)) ;;;
  assign (set_verify (default true verify)).

(** The object before [__init__] has assigned its attributes; no
    attribute is read before it is assigned. *)
Definition blank : Self :=
  {| _base_url := ""; _headers := default_headers;
     _timeout := 0; _verify := false |}.

(** [SerpensConnectionManager(base_url, ...)] *)
Definition new (base_url : string) (headers : option loc)
    (timeout : option Z) (verify : option bool) (w : World) : Run Self unit :=
  __init__ base_url headers timeout verify blank w.

Definition get_param_headers (key : string) : Py Self (option string) :=
  l <- gets _headers ;;
  d <- read_dict l ;;
  ret (d !! key).

Definition clean_headers : Py Self unit :=
  l <- new_dict ∅ ;;
  assign (set_headers l).

Definition has_param_headers (key : string) : Py Self bool :=
  v <- get_param_headers key ;;
  ret (bool_decide (v ≠ None)).

Definition set_param_headers (key value : string) : Py Self unit :=
  l <- gets _headers ;;
  update_dict l (insert key value).

Definition remove_param_headers (key : string) : Py Self unit :=
  l <- gets _headers ;;
  update_dict l (delete key).

Section Verbs.
Variable env : Env.

(** The arguments a verb passes to [requests]:
    [urljoin(self.base_url, path), params=kwargs, data=data,
     headers=self.headers, timeout=self.timeout, verify=self.verify]. *)
Definition request (method : string) (path : string)
    (data : option pydata) (kwargs : list (string * string))
    : Py Self Request :=
  base_url <- gets _base_url ;;
  l <- gets _headers ;;
  headers <- read_dict l ;;
  timeout <- gets _timeout ;;
  verify <- gets _verify ;;
  ret {| rq_method := method;
         rq_url := urljoin env base_url path;
         rq_params := kwargs;
         rq_data := data;
         rq_headers := headers;
         rq_timeout := timeout;
         rq_verify := verify |}.

(** The body the four verbs share:
    [try: return self._s.<method>(...) except Exception as e: pass]. *)
Definition perform (method : string) (path : string)
    (data : option pydata) (kwargs : list (string * string))
    : Py Self (option Response) :=
  try_except
    (rq <- request method path data kwargs ;;
     r <- extern (elapsed env) (network env) (EvHttp rq) ;;
     ret (Some r))
    is_Exception
    (fun _ => ret None).

Definition send_get (path : string) (kwargs : list (string * string))
    : Py Self (option Response) :=
  perform "GET" path None kwargs.

Definition send_post (path : string) (data : pydata)
    (kwargs : list (string * string)) : Py Self (option Response) :=
  perform "POST" path (Some data) kwargs.

Definition send_put (path : string) (data : pydata)
    (kwargs : list (string * string)) : Py Self (option Response) :=
  perform "PUT" path (Some data) kwargs.

(** [data or dict()] *)
Definition send_delete (path : string) (data : pydata)
    (kwargs : list (string * string)) : Py Self (option Response) :=
  perform "DELETE" path
    (Some (if truthy_data data then data else DataDict [])) kwargs.

(** A call of one of the four verbs on a transport. *)
Definition send (v : verb) (path : string) (data : pydata)
    (kwargs : list (string * string)) : Py Self (option Response) :=
  match v with
  | GET => send_get path kwargs
  | POST => send_post path data kwargs
  | PUT => send_put path data kwargs
  | DELETE => send_delete path data kwargs
  end.

(** The request a verb issues from a given object and world. *)
Definition issued (v : verb) (path : string) (data : pydata)
    (kwargs : list (string * string)) (s : Self) (w : World) : Request :=
  {| rq_method :=
       match v with
       | GET => "GET" | POST => "POST" | PUT => "PUT" | DELETE => "DELETE"
       end;
     rq_url := urljoin env (_base_url s) path;
     rq_params := kwargs;
     rq_data :=
       match v with
       | GET => None
       | POST | PUT => Some data
       | DELETE => Some (if truthy_data data then data else DataDict [])
       end;
     rq_headers := default ∅ (heap w !! _headers s);
     rq_timeout := _timeout s;
     rq_verify := _verify s |}.
End Verbs.

End ConnectionManager.


(** ** Floating point: [float * int] and [int(float)]

    [token_lifetime_fraction] is a Python [float], an IEEE 754 binary64
    number, here a primitive float.  The default [0.9] is the nearest
    binary64 number, written exactly in hexadecimal. *)

Definition default_token_lifetime_fraction : float := 0x1.ccccccccccccdp-1%float.

(** Conversion of an [int] operand to [float]: correctly rounded, and an
    [OverflowError] when the integer is beyond the range of a float. *)
Definition float_of_int (z : Z) : result float :=
  let x := SF2Prim (binary_normalize prec emax z 0 false) in
  if PrimFloat.is_infinity x
  then Raises (OverflowError "int too large to convert to float")
  else Returns x.

(** [f * v] for a float [f]. *)
Definition float_mul (f : float) (v : pyval) : result float :=
  match v with
  | PyInt z =>
      match float_of_int z with
      | Returns y => Returns (PrimFloat.mul f y)
      | Raises e => Raises e
      end
  | PyFloat y => Returns (PrimFloat.mul f y)
  | PyStr _ => Raises (TypeError "can't multiply sequence by non-int of type 'float'")
  | PyNone => Raises (TypeError "unsupported operand type(s) for *")
  end.

(** [int(x)] for a float [x]: truncation toward zero. *)
Definition int_of_float (x : float) : result Z :=
  match Prim2SF x with
  | S754_zero _ => Returns 0
  | S754_finite sign m e =>
      let magnitude :=
        match e with
        | Z0 => Z.pos m
        | Zpos p => Z.shiftl (Z.pos m) (Z.pos p)
        | Zneg p => Z.shiftr (Z.pos m) (Z.pos p)
        end in
      Returns (if sign then - magnitude else magnitude)
  | S754_infinity _ => Raises (OverflowError "cannot convert float infinity to integer")
  | S754_nan => Raises (ValueError "cannot convert float NaN to integer")
  end.

(** [timedelta(seconds=n)] in microseconds.  Instants and durations are
    unbounded integers here; the range limits of [datetime] are not
    modelled. *)
Definition timedelta_seconds (n : Z) : Z := n * 1000000.

(** ** [admin.py]: class [SerpensOpenIDConnection] *)

(** The instance attributes; [super_] holds the attributes that belong to
    the base class [SerpensConnectionManager]. *)
Record SerpensOpenIDConnection := {
  super_ : SerpensConnectionManager;
  token_lifetime_fraction : float;
  _username : option string;
  _password : option string;
  _token : option pydict;
  totp : option string;
  realm_name : option string;
  _client_id : option string;
  _client_secret_key : option string;
  user_realm_name : option string;
  custom_headers : option (list (string * string));
  _expires_at : Z;
  _serpens_openid : option SerpensOpenID
}.

(** The names an attribute lookup on a session can find: in the instance,
    in the class, in the base class, in [object]. *)
Definition instance_attributes : list string :=
  ["token_lifetime_fraction"; "_base_url"; "_username"; "_password"; "_token";
   "_expires_at"; "totp"; "realm_name"; "_client_id"; "_verify";
   "_client_secret_key"; "user_realm_name"; "_timeout"; "_headers";
   "custom_headers"; "_s"; "_serpens_openid"].

Definition SerpensOpenIDConnection_attributes : list string :=
  ["_server_url"; "_username"; "_password"; "_totp"; "_realm_name";
   "_client_id"; "_verify"; "_client_secret_key"; "_connection";
   "_custom_headers"; "_user_realm_name"; "_expires_at"; "_serpens_openid";
   "__init__"; "server_url"; "client_id"; "client_secret_key"; "username";
   "password"; "token"; "expires_at"; "serpens_openid"; "get_token";
   "refresh_token"; "_refresh_if_required"; "send_get"; "send_post"].

Definition SerpensConnectionManager_attributes : list string :=
  ["__init__"; "__del__"; "base_url"; "timeout"; "verify"; "headers";
   "get_param_headers"; "clean_headers"; "has_param_headers";
   "set_param_headers"; "remove_param_headers"; "send_get"; "send_post";
   "send_put"; "send_delete"].

Definition object_attributes : list string :=
  ["__class__"; "__delattr__"; "__dict__"; "__dir__"; "__doc__"; "__eq__";
   "__format__"; "__ge__"; "__getattribute__"; "__gt__"; "__hash__";
   "__init__"; "__init_subclass__"; "__le__"; "__lt__"; "__module__";
   "__ne__"; "__new__"; "__reduce__"; "__reduce_ex__"; "__repr__";
   "__setattr__"; "__sizeof__"; "__str__"; "__subclasshook__";
   "__weakref__"].

Definition hasattr (name : string) : bool :=
  bool_decide (name ∈ instance_attributes ++ SerpensOpenIDConnection_attributes
                 ++ SerpensConnectionManager_attributes ++ object_attributes).

Module OpenIDConnection.

Definition Self := SerpensOpenIDConnection.

Definition set_super (v : SerpensConnectionManager) (s : Self) : Self :=
  {| super_ := v;
     token_lifetime_fraction := token_lifetime_fraction s;
     _username := _username s;
     _password := _password s;
     _token := _token s;
     totp := totp s;
     realm_name := realm_name s;
     _client_id := _client_id s;
     _client_secret_key := _client_secret_key s;
     user_realm_name := user_realm_name s;
     custom_headers := custom_headers s;
     _expires_at := _expires_at s;
     _serpens_openid := _serpens_openid s |}.
Definition set_token_lifetime_fraction (v : float) (s : Self) : Self :=
  {| super_ := super_ s;
     token_lifetime_fraction := v;
     _username := _username s;
     _password := _password s;
     _token := _token s;
     totp := totp s;
     realm_name := realm_name s;
     _client_id := _client_id s;
     _client_secret_key := _client_secret_key s;
     user_realm_name := user_realm_name s;
     custom_headers := custom_headers s;
     _expires_at := _expires_at s;
     _serpens_openid := _serpens_openid s |}.
Definition set_username (v : option string) (s : Self) : Self :=
  {| super_ := super_ s;
     token_lifetime_fraction := token_lifetime_fraction s;
     _username := v;
     _password := _password s;
     _token := _token s;
     totp := totp s;
     realm_name := realm_name s;
     _client_id := _client_id s;
     _client_secret_key := _client_secret_key s;
     user_realm_name := user_realm_name s;
     custom_headers := custom_headers s;
     _expires_at := _expires_at s;
     _serpens_openid := _serpens_openid s |}.
Definition set_password (v : option string) (s : Self) : Self :=
  {| super_ := super_ s;
     token_lifetime_fraction := token_lifetime_fraction s;
     _username := _username s;
     _password := v;
     _token := _token s;
     totp := totp s;
     realm_name := realm_name s;
     _client_id := _client_id s;
     _client_secret_key := _client_secret_key s;
     user_realm_name := user_realm_name s;
     custom_headers := custom_headers s;
     _expires_at := _expires_at s;
     _serpens_openid := _serpens_openid s |}.
Definition set_token (v : option pydict) (s : Self) : Self :=
  {| super_ := super_ s;
     token_lifetime_fraction := token_lifetime_fraction s;
     _username := _username s;
     _password := _password s;
     _token := v;
     totp := totp s;
     realm_name := realm_name s;
     _client_id := _client_id s;
     _client_secret_key := _client_secret_key s;
     user_realm_name := user_realm_name s;
     custom_headers := custom_headers s;
     _expires_at := _expires_at s;
     _serpens_openid := _serpens_openid s |}.
Definition set_totp (v : option string) (s : Self) : Self :=
  {| super_ := super_ s;
     token_lifetime_fraction := token_lifetime_fraction s;
     _username := _username s;
     _password := _password s;
     _token := _token s;
     totp := v;
     realm_name := realm_name s;
     _client_id := _client_id s;
     _client_secret_key := _client_secret_key s;
     user_realm_name := user_realm_name s;
     custom_headers := custom_headers s;
     _expires_at := _expires_at s;
     _serpens_openid := _serpens_openid s |}.
Definition set_realm_name (v : option string) (s : Self) : Self :=
  {| super_ := super_ s;
     token_lifetime_fraction := token_lifetime_fraction s;
     _username := _username s;
     _password := _password s;
     _token := _token s;
     totp := totp s;
     realm_name := v;
     _client_id := _client_id s;
     _client_secret_key := _client_secret_key s;
     user_realm_name := user_realm_name s;
     custom_headers := custom_headers s;
     _expires_at := _expires_at s;
     _serpens_openid := _serpens_openid s |}.
Definition set_client_id (v : option string) (s : Self) : Self :=
  {| super_ := super_ s;
     token_lifetime_fraction := token_lifetime_fraction s;
     _username := _username s;
     _password := _password s;
     _token := _token s;
     totp := totp s;
     realm_name := realm_name s;
     _client_id := v;
     _client_secret_key := _client_secret_key s;
     user_realm_name := user_realm_name s;
     custom_headers := custom_headers s;
     _expires_at := _expires_at s;
     _serpens_openid := _serpens_openid s |}.
Definition set_client_secret_key (v : option string) (s : Self) : Self :=
  {| super_ := super_ s;
     token_lifetime_fraction := token_lifetime_fraction s;
     _username := _username s;
     _password := _password s;
     _token := _token s;
     totp := totp s;
     realm_name := realm_name s;
     _client_id := _client_id s;
     _client_secret_key := v;
     user_realm_name := user_realm_name s;
     custom_headers := custom_headers s;
     _expires_at := _expires_at s;
     _serpens_openid := _serpens_openid s |}.
Definition set_user_realm_name (v : option string) (s : Self) : Self :=
  {| super_ := super_ s;
     token_lifetime_fraction := token_lifetime_fraction s;
     _username := _username s;
     _password := _password s;
     _token := _token s;
     totp := totp s;
     realm_name := realm_name s;
     _client_id := _client_id s;
     _client_secret_key := _client_secret_key s;
     user_realm_name := v;
     custom_headers := custom_headers s;
     _expires_at := _expires_at s;
     _serpens_openid := _serpens_openid s |}.
Definition set_custom_headers (v : option (list (string * string))) (s : Self) : Self :=
  {| super_ := super_ s;
     token_lifetime_fraction := token_lifetime_fraction s;
     _username := _username s;
     _password := _password s;
     _token := _token s;
     totp := totp s;
     realm_name := realm_name s;
     _client_id := _client_id s;
     _client_secret_key := _client_secret_key s;
     user_realm_name := user_realm_name s;
     custom_headers := v;
     _expires_at := _expires_at s;
     _serpens_openid := _serpens_openid s |}.
Definition set_expires_at (v : Z) (s : Self) : Self :=
  {| super_ := super_ s;
     token_lifetime_fraction := token_lifetime_fraction s;
     _username := _username s;
     _password := _password s;
     _token := _token s;
     totp := totp s;
     realm_name := realm_name s;
     _client_id := _client_id s;
     _client_secret_key := _client_secret_key s;
     user_realm_name := user_realm_name s;
     custom_headers := custom_headers s;
     _expires_at := v;
     _serpens_openid := _serpens_openid s |}.
Definition set_serpens_openid (v : option SerpensOpenID) (s : Self) : Self :=
  {| super_ := super_ s;
     token_lifetime_fraction := token_lifetime_fraction s;
     _username := _username s;
     _password := _password s;
     _token := _token s;
     totp := totp s;
     realm_name := realm_name s;
     _client_id := _client_id s;
     _client_secret_key := _client_secret_key s;
     user_realm_name := user_realm_name s;
     custom_headers := custom_headers s;
     _expires_at := _expires_at s;
     _serpens_openid := v |}.

(** [super().method(...)]: the method of the base class runs on the
    attributes of the same object. *)
Definition super {A} (m : Py SerpensConnectionManager A) : Py Self A :=
  fun s w =>
    let r := m (super_ s) w in
    MkRun (value r) (set_super (self_after r) s) (world_after r).

Definition lift {A} (r : result A) : Py Self A :=
  fun s w => MkRun r s w.

(** [d[key]] *)
Definition subscript (d : option pydict) (key : string) : Py Self pyval :=
  match d with
  | None => raise (TypeError "'NoneType' object is not subscriptable")
  | Some d =>
      match d !! key with
      | Some v => ret v
      | None => raise (KeyError key)
      end
  end.

(** [d.get(key)], [None] when the key is absent. *)
Definition dict_get (d : pydict) (key : string) : pyval :=
  default PyNone (d !! key).

(** The setter of the property [token]:
    [self._token = value]
    [self._expires_at = datetime.now() + timedelta(seconds=int(
       self.token_lifetime_fraction * self.token["expires_in"] if value else 0))] *)
Definition token_setter (value : option pydict) : Py Self unit :=
  assign (set_token value) ;;;
  t <- now ;;
  seconds <-
    (if truthy_dict value then
       f <- gets token_lifetime_fraction ;;
       tok <- gets _token ;;
       lifetime <- subscript tok "expires_in" ;;
       x <- lift (float_mul f lifetime) ;;
       lift (int_of_float x)
     else ret 0) ;;
  assign (set_expires_at (t + timedelta_seconds seconds)).

(** The property [serpens_openid]: the client is built on first use and
    kept. *)
Definition serpens_openid : Py Self SerpensOpenID :=
  cached <- gets _serpens_openid ;;
  match cached with
  | Some c => ret c
  | None =>
      urn <- gets user_realm_name ;;
      rn <- gets realm_name ;;
      let token_realm_name :=
        if truthy urn then default "" urn
        else if truthy rn then default "" rn
        else "master" in
      server_url <- super (gets _base_url) ;;
      client_id <- gets _client_id ;;
      verify <- super (gets _verify) ;;
      client_secret_key <- gets _client_secret_key ;;
      timeout <- super (gets _timeout) ;;
      let c := {| oid_server_url := server_url;
                  oid_client_id := client_id;
                  oid_realm_name := token_realm_name;
                  oid_verify := verify;
                  oid_client_secret_key := client_secret_key;
                  oid_timeout := timeout |} in
      assign (set_serpens_openid (Some c)) ;;;
      ret c
  end.

Section Methods.
Variable env : Env.

Definition get_token : Py Self unit :=
  log EvGetToken ;;;
  client_secret_key <- gets _client_secret_key ;;
  username <- gets _username ;;
  password <- gets _password ;;
  let grant_type :=
    if truthy client_secret_key then ["client_credentials"]
    else if truthy username && truthy password then ["password"]
    else [] in
  match grant_type with
  | [] => token_setter None
  | _ =>
      client <- serpens_openid ;;
      totp <- gets totp ;;
      tok <- extern (elapsed env) (token_service env)
               (EvTokenCall client username password grant_type totp) ;;
      token_setter (Some tok)
  end.

Definition list_errors : list string :=
  ["Refresh token expired"; "Token is not active"; "Session not active"].

(** The rejection on which a failed refresh falls back to [get_token]:
    [e.response_code == 400 and
     any(err in e.response_body for err in list_errors)]. *)
Definition is_rejection (e : exn) : bool :=
  match e with
  | SerpensPostError response_code response_body =>
      (response_code =? 400)
      && existsb (fun err => contains err response_body) list_errors
  | _ => false
  end.

(** The statements of [refresh_token] before its last one: the choice
    between refresh and acquisition, with the fallback. *)
Definition refresh_or_acquire : Py Self unit :=
  tok <- gets _token ;;
  let refresh_token :=
    if truthy_dict tok then dict_get (default ∅ tok) "refresh_token"
    else PyNone in
  match refresh_token with
  | PyNone => get_token
  | _ =>
      try_except
        (client <- serpens_openid ;;
         new_tok <- extern (elapsed env) (token_service env)
                      (EvRefreshCall client refresh_token) ;;
         token_setter (Some new_tok))
        is_SerpensPostError
        (fun e => if is_rejection e then get_token else raise e)
  end.

(** ["Bearer " + self.token.get("access_token")] *)
Definition bearer : Py Self string :=
  tok <- gets _token ;;
  match tok with
  | None => raise (AttributeError "get")
  | Some d =>
      match dict_get d "access_token" with
      | PyStr s => ret ("Bearer " +:+ s)
      | _ => raise (TypeError "can only concatenate str to str")
      end
  end.

(** [self.<name>(key, value)]: the attribute is looked up first, then
    the arguments are evaluated, then the call is made.  Of the names an
    object has, [set_param_headers] is the one that takes a key and a
    value. *)
Definition call_method (name : string) (key : string)
    (value : Py Self string) : Py Self unit :=
  if hasattr name then
    v <- value ;;
    if bool_decide (name = "set_param_headers")
    then super (ConnectionManager.set_param_headers key v)
    else raise (TypeError "wrong number of arguments")
  else raise (AttributeError name).

(** The last statement of [refresh_token]:
    [self.add_param_headers("Authorization",
                            "Bearer " + self.token.get("access_token"))] *)
Definition update_authorization : Py Self unit :=
  call_method "add_param_headers" "Authorization" bearer.

Definition refresh_token : Py Self unit :=
  refresh_or_acquire ;;;
  update_authorization.

Definition _refresh_if_required : Py Self unit :=
  t <- now ;;
  expires_at <- gets _expires_at ;;
  if t >=? expires_at then refresh_token else ret tt.

Definition send_get (path : string) (kwargs : list (string * string))
    : Py Self (option Response) :=
  _refresh_if_required ;;;
  r <- super (ConnectionManager.send_get env path kwargs) ;;
  ret r.

(** The body ends after the assignment to [r]: the method returns
    [None]. *)
Definition send_post (path : string) (data : pydata)
    (kwargs : list (string * string)) : Py Self (option Response) :=
  _refresh_if_required ;;;
  r <- super (ConnectionManager.send_post env path data kwargs) ;;
  ret None.

(** [send_put] and [send_delete] are not defined in the class: the
    lookup finds the methods of the base class. *)
Definition send_put (path : string) (data : pydata)
    (kwargs : list (string * string)) : Py Self (option Response) :=
  super (ConnectionManager.send_put env path data kwargs).

Definition send_delete (path : string) (data : pydata)
    (kwargs : list (string * string)) : Py Self (option Response) :=
  super (ConnectionManager.send_delete env path data kwargs).

(** A call of one of the four verbs on a session. *)
Definition send (v : verb) (path : string) (data : pydata)
    (kwargs : list (string * string)) : Py Self (option Response) :=
  match v with
  | GET => send_get path kwargs
  | POST => send_post path data kwargs
  | PUT => send_put path data kwargs
  | DELETE => send_delete path data kwargs
  end.

(** The arguments of [__init__], with their default values. *)
Record Args := {
  arg_server_url : string;
  arg_username : option string;
  arg_password : option string;
  arg_token : option pydict;
  arg_totp : option string;
  arg_realm_name : option string;
  arg_client_id : option string;
  arg_verify : bool;
  arg_client_secret_key : option string;
  arg_custom_headers : option (list (string * string));
  arg_user_realm_name : option string;
  arg_timeout : Z
}.

Definition only_server_url (server_url : string) : Args :=
  {| arg_server_url := server_url;
     arg_username := None;
     arg_password := None;
     arg_token := None;
     arg_totp := None;
     arg_realm_name := Some "master";
     arg_client_id := Some "admin-cli";
     arg_verify := true;
     arg_client_secret_key := None;
     arg_custom_headers := None;
     arg_user_realm_name := None;
     arg_timeout := 60 |}.

Definition __init__ (a : Args) : Py Self unit :=
  assign (set_token_lifetime_fraction default_token_lifetime_fraction) ;;;
  super (assign (ConnectionManager.set_base_url (arg_server_url a))) ;;;
  assign (set_username (arg_username a)) ;;;
  assign (set_password (arg_password a)) ;;;
  token_setter (arg_token a) ;;;
  assign (set_totp (arg_totp a)) ;;;
  assign (set_realm_name (arg_realm_name a)) ;;;
  assign (set_client_id (arg_client_id a)) ;;;
  super (assign (ConnectionManager.set_verify (arg_verify a))) ;;;
  assign (set_client_secret_key (arg_client_secret_key a)) ;;;
  assign (set_user_realm_name (arg_user_realm_name a)) ;;;
  super (assign (ConnectionManager.set_timeout (arg_timeout a))) ;;;
  tok <- gets _token ;;
  (match tok with
   | None => get_token
   | Some _ => ret tt
   end) ;;;
  tok <- gets _token ;;
  headers <-
    (match tok with
     | Some _ =>
         authorization <- bearer ;;
         new_dict {[ "Authorization" := authorization;
                     "Content-Type" := "application/json" ]}
     | None => new_dict ∅
     end) ;;
  super (assign (ConnectionManager.set_headers headers)) ;;;
  assign (set_custom_headers (arg_custom_headers a)) ;;;
  base_url <- super (gets _base_url) ;;
  headers <- super (gets _headers) ;;
  verify <- super (gets _verify) ;;
  super (ConnectionManager.__init__ base_url (Some headers) (Some 60) (Some verify)).

(** The object before [__init__] has assigned its attributes: the class
    gives [_expires_at] and [_serpens_openid] the value [None]; no other
    attribute is read before it is assigned. *)
Definition blank : Self :=
  {| super_ := ConnectionManager.blank;
     token_lifetime_fraction := PrimFloat.zero;
     _username := None;
     _password := None;
     _token := None;
     totp := None;
     realm_name := None;
     _client_id := None;
     _client_secret_key := None;
     user_realm_name := None;
     custom_headers := None;
     _expires_at := 0;
     _serpens_openid := None |}.

(** [SerpensOpenIDConnection(server_url, ...)] *)
Definition new (a : Args) (w : World) : Run Self unit :=
  __init__ a blank w.

End Methods.

End OpenIDConnection.

(** ** Observations on worlds and traces *)

(** The world after an external call [ev] made in [w]. *)
Definition after_call (env : Env) (ev : event) (w : World) : World :=
  {| heap := heap w;
     clock := clock w + elapsed env (trace w ++ [ev]);
     trace := trace w ++ [ev] |}.

Definition is_ts_call (ev : event) : bool :=
  match ev with
  | EvTokenCall _ _ _ _ _ | EvRefreshCall _ _ => true
  | _ => false
  end.

Definition is_get_token (ev : event) : bool :=
  match ev with
  | EvGetToken => true
  | _ => false
  end.

Definition is_http (ev : event) : bool :=
  match ev with
  | EvHttp _ => true
  | _ => false
  end.

Fixpoint count (p : event -> bool) (evs : list event) : nat :=
  match evs with
  | [] => O
  | ev :: rest => ((if p ev then 1 else 0) + count p rest)%nat
  end.

(** The headers a transport currently holds. *)
Definition headers_of (s : SerpensConnectionManager) (w : World) : headers_dict :=
  default ∅ (heap w !! _headers s).

(** The world after [ev] has been logged in [w]. *)
Definition logged (ev : event) (w : World) : World :=
  {| heap := heap w; clock := clock w; trace := trace w ++ [ev] |}.

(** ** Readings of a session *)

Module Session.

Import OpenIDConnection.

(** The grant [get_token] selects. *)
Definition grant_type_of (s : Self) : list string :=
  if truthy (_client_secret_key s) then ["client_credentials"]
  else if truthy (_username s) && truthy (_password s) then ["password"]
  else [].

Definition has_grant (s : Self) : bool :=
  match grant_type_of s with
  | [] => false
  | _ => true
  end.

(** The client the property [serpens_openid] yields. *)
Definition client_of (s : Self) : SerpensOpenID :=
  match _serpens_openid s with
  | Some c => c
  | None =>
      {| oid_server_url := _base_url (super_ s);
         oid_client_id := _client_id s;
         oid_realm_name :=
           if truthy (user_realm_name s) then default "" (user_realm_name s)
           else if truthy (realm_name s) then default "" (realm_name s)
           else "master";
         oid_verify := _verify (super_ s);
         oid_client_secret_key := _client_secret_key s;
         oid_timeout := _timeout (super_ s) |}
  end.

Definition with_client (s : Self) : Self :=
  set_serpens_openid (Some (client_of s)) s.

(** The refresh token [refresh_token] finds in the stored token. *)
Definition stored_refresh_token (s : Self) : pyval :=
  if truthy_dict (_token s)
  then dict_get (default ∅ (_token s)) "refresh_token"
  else PyNone.

Definition has_refresh_token (s : Self) : bool :=
  match stored_refresh_token s with
  | PyNone => false
  | _ => true
  end.

(** The TokenService calls of a session. *)
Definition token_call (s : Self) : event :=
  EvTokenCall (client_of s) (_username s) (_password s)
    (grant_type_of s) (totp s).

Definition refresh_call (s : Self) : event :=
  EvRefreshCall (client_of s) (stored_refresh_token s).

(** The whole seconds the setter of [token] adds to the clock:
    [int(fraction * value["expires_in"] if value else 0)]. *)
Definition expiry_seconds (fraction : float) (value : option pydict)
    : result Z :=
  if truthy_dict value then
    match default ∅ value !! "expires_in" with
    | None => Raises (KeyError "expires_in")
    | Some lifetime =>
        match float_mul fraction lifetime with
        | Returns x => int_of_float x
        | Raises e => Raises e
        end
    end
  else Returns 0.

(** The session after the setter of [token] has stored [value] at
    instant [t] with [n] whole seconds to live. *)
Definition stored (value : option pydict) (t n : Z) (s : Self) : Self :=
  set_expires_at (t + timedelta_seconds n) (set_token value s).

(** The headers a session currently holds. *)
Definition headers (s : Self) (w : World) : headers_dict :=
  headers_of (super_ s) w.

(** The events of one run of [get_token]: its entry, and the call to
    the TokenService when a grant is configured. *)
Definition acquisition_events (s : Self) : list event :=
  EvGetToken :: (if has_grant s then [token_call s] else []).

(** The events of one run of [refresh_token]. *)
Definition refresh_events (env : Env) (s : Self) (w : World) : list event :=
  if has_refresh_token s then
    refresh_call s ::
    match token_service env (trace w ++ [refresh_call s]) with
    | Returns _ => []
    | Raises e => if is_rejection e then acquisition_events s else []
    end
  else acquisition_events s.

(** The exception a run of [refresh_token] ends with: the one its
    refresh or acquisition raised, or else the one of its last
    statement. *)
Definition refresh_error (env : Env) (s : Self) (w : World) : exn :=
  match value (refresh_or_acquire env s w) with
  | Returns _ => AttributeError "add_param_headers"
  | Raises e => e
  end.

(** The verb of the transport, run on the attributes of the session. *)
Definition delegated (env : Env) (v : verb) (path : string) (data : pydata)
    (kwargs : list (string * string)) : Py Self (option Response) :=
  super (ConnectionManager.send env v path data kwargs).

(** The request a verb of the session hands to the transport. *)
Definition issued (env : Env) (v : verb) (path : string) (data : pydata)
    (kwargs : list (string * string)) (s : Self) (w : World) : Request :=
  ConnectionManager.issued env v path data kwargs (super_ s) w.

End Session.

(** The events a run added to the trace of the world it started in. *)
Definition new_events {Self A} (w : World) (r : Run Self A) : list event :=
  drop (length (trace w)) (trace (world_after r)).

(** ** The default fraction on a range of lifetimes *)

(** Whether [int(0.9 * L)] is the whole part of nine tenths of [L]. *)
Definition nine_tenths_ok (L : Z) : bool :=
  match float_mul default_token_lifetime_fraction (PyInt L) with
  | Returns x =>
      match int_of_float x with
      | Returns n => n =? 9 * L / 10
      | Raises _ => false
      end
  | Raises _ => false
  end.

(** [nine_tenths_ok] on every [L] with [lo <= L < lo + len]. *)
Fixpoint nine_tenths_ok_on (lo : Z) (len : positive) : bool :=
  match len with
  | xH => nine_tenths_ok lo
  | xO half =>
      nine_tenths_ok_on lo half && nine_tenths_ok_on (lo + Z.pos half) half
  | xI half =>
      nine_tenths_ok lo && nine_tenths_ok_on (lo + 1) half
      && nine_tenths_ok_on (lo + 1 + Z.pos half) half
  end.

(** The lifetimes, in seconds, on which the default fraction has been
    evaluated: up to 2^17 seconds, a day and a half. *)
Definition checked_lifetimes : positive := 131072.

(** ** Statements about runs *)

Module Stated.

Import OpenIDConnection.

(** The number of TokenService calls [refresh_token] makes: one refresh
    when a refresh token is stored, and one acquisition when a grant is
    configured and either no refresh token is stored or the refresh was
    rejected. *)
Definition token_service_calls (env : Env) (s : Self) (w : World) : nat :=
  if Session.has_refresh_token s then
    match token_service env (trace w ++ [Session.refresh_call s]) with
    | Returns _ => 1
    | Raises e => if is_rejection e && Session.has_grant s then 2 else 1
    end
  else if Session.has_grant s then 1 else 0.

(** "A request issued at [now < expiresAt] triggers zero calls to
    TokenService; a request issued at [now >= expiresAt] triggers exactly
    one refresh-or-acquire call." *)
Definition one_call_when_expired (env : Env) (v : verb) (path : string)
    (data : pydata) (kwargs : list (string * string)) (s : Self) (w : World)
    : Prop :=
  count is_ts_call (new_events w (send env v path data kwargs s w))
  = if clock w <? _expires_at s then 0%nat else 1%nat.

(** "Every invocation of [refresh_token] raises an [AttributeError]." *)
Definition raises_attribute_error (env : Env) (s : Self) (w : World) : Prop :=
  exists attr, value (refresh_token env s w) = Raises (AttributeError attr).


End Stated.

(** ** Concrete sessions and environments *)

Module Scenario.

Import OpenIDConnection.

Definition token_of (lifetime : Z) : pydict :=
  {[ "access_token" := PyStr "a1";
     "refresh_token" := PyStr "r1";
     "expires_in" := PyInt lifetime ]}.

Definition token_acquired : pydict :=
  {[ "access_token" := PyStr "a2";
     "refresh_token" := PyStr "r2";
     "expires_in" := PyInt 300 ]}.

Definition ok : Response :=
  {| status_code := 200; resp_headers := []; content := "{}" |}.

Definition session_not_active : exn :=
  SerpensPostError 400 "invalid_grant: Session not active".

Definition server_error : exn :=
  SerpensPostError 500 "Internal Server Error".

(** A server that answers every request with 200, and a token endpoint
    that fails every refresh with [e] and grants every acquisition; each
    call takes a millisecond. *)
Definition env_refresh_fails (e : exn) : Env :=
  {| urljoin := fun base path => base +:+ path;
     token_service :=
       fun h =>
         match last h with
         | Some (EvRefreshCall _ _) => Raises e
         | _ => Returns token_acquired
         end;
     network := fun _ => Returns ok;
     elapsed := fun _ => 1000 |}.

(** A network on which every request fails to connect. *)
Definition env_offline : Env :=
  {| urljoin := fun base path => base +:+ path;
     token_service := fun _ => Returns token_acquired;
     network := fun _ => Raises (RequestException "ConnectionError");
     elapsed := fun _ => 1000 |}.

(** [SerpensOpenIDConnection(url, username="admin", password="secret",
    token=tok, timeout=t)] *)
Definition args (tok : option pydict) (t : Z) : Args :=
  {| arg_server_url := "https://sso.example/";
     arg_username := Some "admin";
     arg_password := Some "secret";
     arg_token := tok;
     arg_totp := None;
     arg_realm_name := Some "master";
     arg_client_id := Some "admin-cli";
     arg_verify := true;
     arg_client_secret_key := None;
     arg_custom_headers := None;
     arg_user_realm_name := None;
     arg_timeout := t |}.

(** A session built on a token of 300 seconds, at instant 0. *)
Definition built (env : Env) : Run Self unit :=
  new env (args (Some (token_of 300)) 60) module_imported.

Definition session (env : Env) : Self := self_after (built env).

(** The world [seconds] after the session was built. *)
Definition later (env : Env) (seconds : Z) : World :=
  {| heap := heap (world_after (built env));
     clock := clock (world_after (built env)) + timedelta_seconds seconds;
     trace := trace (world_after (built env)) |}.

End Scenario.
(** ** Readings of the arguments of a construction *)

Module Built.

Import OpenIDConnection.

(** Whether the arguments configure a grant. *)
Definition has_grant (a : Args) : bool :=
  truthy (arg_client_secret_key a)
  || (truthy (arg_username a) && truthy (arg_password a)).

(** The TokenService client a construction builds when it acquires its
    token. *)
Definition client (a : Args) : SerpensOpenID :=
  {| oid_server_url := arg_server_url a;
     oid_client_id := arg_client_id a;
     oid_realm_name :=
       if truthy (arg_user_realm_name a) then default "" (arg_user_realm_name a)
       else if truthy (arg_realm_name a) then default "" (arg_realm_name a)
       else "master";
     oid_verify := arg_verify a;
     oid_client_secret_key := arg_client_secret_key a;
     oid_timeout := arg_timeout a |}.

(** The acquisition a construction makes. *)
Definition acquisition (a : Args) : event :=
  EvTokenCall (client a) (arg_username a) (arg_password a)
    (if truthy (arg_client_secret_key a) then ["client_credentials"]
     else ["password"])
    (arg_totp a).

(** The headers a construction gives a session whose access token is
    [t]. *)
Definition headers_for (t : string) : headers_dict :=
  {[ "Authorization" := "Bearer " +:+ t;
     "Content-Type" := "application/json" ]}.

End Built.

(** ** More concrete sessions and environments *)

Module Cases.

Import OpenIDConnection.

(** A server and a token endpoint that answer every call. *)
Definition env_up : Env :=
  {| urljoin := fun base path => base +:+ path;
     token_service := fun _ => Returns Scenario.token_acquired;
     network := fun _ => Returns Scenario.ok;
     elapsed := fun _ => 1000 |}.

(** A token endpoint that fails every call with status 500. *)
Definition env_down : Env :=
  {| urljoin := fun base path => base +:+ path;
     token_service := fun _ => Raises Scenario.server_error;
     network := fun _ => Returns Scenario.ok;
     elapsed := fun _ => 1000 |}.

(** A request interrupted from the keyboard. *)
Definition env_interrupted : Env :=
  {| urljoin := fun base path => base +:+ path;
     token_service := fun _ => Returns Scenario.token_acquired;
     network := fun _ => Raises KeyboardInterrupt;
     elapsed := fun _ => 1000 |}.

(** [SerpensOpenIDConnection(url, username="admin", password="secret",
    client_secret_key="s3cr3t", totp="123456", timeout=30)] *)
Definition args_with_secret : Args :=
  {| arg_server_url := "https://sso.example/";
     arg_username := Some "admin";
     arg_password := Some "secret";
     arg_token := None;
     arg_totp := Some "123456";
     arg_realm_name := Some "master";
     arg_client_id := Some "admin-cli";
     arg_verify := true;
     arg_client_secret_key := Some "s3cr3t";
     arg_custom_headers := Some [("X-Tenant", "blue")];
     arg_user_realm_name := None;
     arg_timeout := 30 |}.

(** A token without [access_token], and one without [expires_in]. *)
Definition token_without_access : pydict :=
  {[ "refresh_token" := PyStr "r1"; "expires_in" := PyInt 300 ]}.

Definition token_without_lifetime : pydict :=
  {[ "access_token" := PyStr "a1"; "refresh_token" := PyStr "r1" ]}.

(** A session that holds a token but no credentials. *)
Definition session_without_grant : Self :=
  set_password None (set_username None (Scenario.session env_up)).

End Cases.

(** * Theorems *)

(** ** The transport *)

(** A verb of the transport makes one request, and its result is decided
    by the answer of the network alone. *)
Lemma transport_send env v path data kwargs s w :
  ConnectionManager.send env v path data kwargs s w =
  let ev := EvHttp (ConnectionManager.issued env v path data kwargs s w) in
  MkRun
    match network env (trace w ++ [ev]) with
    | Returns r => Returns (Some r)
    | Raises e => if is_Exception e then Returns None else Raises e
    end
    s (after_call env ev w).
Proof.
  destruct v; cbn;
    unfold ConnectionManager.send_get, ConnectionManager.send_post,
      ConnectionManager.send_put, ConnectionManager.send_delete,
      ConnectionManager.perform, try_except, bind, extern; cbn;
    unfold ConnectionManager.issued, after_call; cbn;
    match goal with |- context [network env ?h] => destruct (network env h) as [r|e] end;
    cbn; try reflexivity; destruct (is_Exception e); reflexivity.
Qed.

(** C7: for each of the four verbs of the transport, an exception raised
    while the request is made (connection refused, timeout, TLS error:
    any subclass of [Exception]) is caught in the verb, which returns
    [None] to its caller and leaves the object as it was. *)
Theorem transport_error_gives_no_response
    env v path data kwargs s w e :
  network env
    (trace w ++ [EvHttp (ConnectionManager.issued env v path data kwargs s w)])
    = Raises e ->
  is_Exception e = true ->
  ConnectionManager.send env v path data kwargs s w =
  MkRun (Returns None) s
    (after_call env
       (EvHttp (ConnectionManager.issued env v path data kwargs s w)) w).
Proof.
  intros Hnet Hexc. rewrite transport_send. cbn. rewrite Hnet, Hexc. reflexivity.
Qed.

(** Two transports built without a [headers] argument hold the same
    reference. *)
Lemma new_without_headers_binds_default base_url timeout verify w :
  ConnectionManager.new base_url None timeout verify w =
  MkRun (Returns tt)
    {| _base_url := base_url; _headers := default_headers;
       _timeout := default 60 timeout; _verify := default true verify |}
    w.
Proof. reflexivity. Qed.



(** ** The credential session: the setter of [token] *)

Import OpenIDConnection.

#[local] Arguments token_setter : simpl never.
#[local] Arguments serpens_openid : simpl never.
#[local] Arguments get_token : simpl never.
#[local] Arguments refresh_or_acquire : simpl never.
#[local] Arguments refresh_token : simpl never.
#[local] Arguments is_rejection : simpl never.

(** The setter stores the value, and sets the expiry from the clock and
    the whole seconds computed from the value; when that computation
    raises, the value is stored and the expiry is left as it was. *)
Lemma token_setter_run value s w :
  token_setter value s w =
  match Session.expiry_seconds (token_lifetime_fraction s) value with
  | Returns n => MkRun (Returns tt) (Session.stored value (clock w) n s) w
  | Raises e => MkRun (Raises e) (set_token value s) w
  end.
Proof.
  unfold token_setter, Session.expiry_seconds, Session.stored, bind, assign, now.
  destruct value as [d|]; cbn; [|reflexivity].
  destruct (bool_decide (d = ∅)); cbn; [reflexivity|].
  unfold bind, gets, subscript; cbn.
  destruct (d !! "expires_in") as [lifetime|]; cbn; [|reflexivity].
  unfold lift.
  destruct (float_mul (token_lifetime_fraction s) lifetime) as [x|e]; cbn;
    [|reflexivity].
  destruct (int_of_float x); reflexivity.
Qed.

Lemma serpens_openid_run s w :
  serpens_openid s w =
  MkRun (Returns (Session.client_of s)) (Session.with_client s) w.
Proof.
  unfold serpens_openid, Session.client_of, Session.with_client, bind, gets.
  destruct s as [b f u p t to rn ci cs urn ch ea [c|]]; reflexivity.
Qed.

Lemma get_token_run env s w :
  get_token env s w =
  match Session.grant_type_of s with
  | [] => token_setter None s (logged EvGetToken w)
  | _ =>
      let w1 := after_call env (Session.token_call s) (logged EvGetToken w) in
      match token_service env (trace w1) with
      | Returns tok => token_setter (Some tok) (Session.with_client s) w1
      | Raises e => MkRun (Raises e) (Session.with_client s) w1
      end
  end.
Proof.
  unfold get_token, Session.token_call, Session.grant_type_of, bind, log, gets.
  cbn.
  destruct (truthy (_client_secret_key s)); cbn.
  - rewrite serpens_openid_run. cbn. unfold extern, after_call, logged. cbn.
    destruct (token_service env _); reflexivity.
  - destruct (truthy (_username s) && truthy (_password s)); cbn.
    + rewrite serpens_openid_run. cbn. unfold extern, after_call, logged. cbn.
      destruct (token_service env _); reflexivity.
    + reflexivity.
Qed.

(** ** The credential session: refresh and acquisition *)

Lemma token_setter_never_raises_post_error tok s w e :
  value (token_setter tok s w) = Raises e -> is_SerpensPostError e = false.
Proof.
  rewrite token_setter_run. unfold Session.expiry_seconds.
  destruct (truthy_dict tok); [|discriminate].
  destruct (default ∅ tok !! "expires_in") as [lifetime|]; cbn.
  - unfold float_mul, float_of_int, int_of_float.
    destruct lifetime as [|z|x|str]; cbn;
      repeat match goal with
             | |- context [if ?b then _ else _] => destruct b; cbn
             | |- context [match Prim2SF ?x with _ => _ end] =>
                 destruct (Prim2SF x); cbn
             end;
      intros H; inversion H; reflexivity.
  - intros H; inversion H; reflexivity.
Qed.

Lemma rejection_is_post_error e :
  is_rejection e = true -> is_SerpensPostError e = true.
Proof. unfold is_rejection. destruct e; cbn; congruence. Qed.

(** [refresh_token] up to its last statement: with a refresh token
    stored it calls the TokenService once to refresh, stores the token it
    gets, falls back to [get_token] on a rejection, and lets any other
    error through; without one it runs [get_token]. *)
Lemma refresh_or_acquire_run env s w :
  refresh_or_acquire env s w =
  if Session.has_refresh_token s then
    let w1 := after_call env (Session.refresh_call s) w in
    match token_service env (trace w1) with
    | Returns tok => token_setter (Some tok) (Session.with_client s) w1
    | Raises e =>
        if is_rejection e then get_token env (Session.with_client s) w1
        else MkRun (Raises e) (Session.with_client s) w1
    end
  else get_token env s w.
Proof.
  unfold refresh_or_acquire, Session.has_refresh_token, Session.refresh_call,
    Session.stored_refresh_token, bind, gets.
  cbn.
  destruct (if truthy_dict (_token s)
            then dict_get (default ∅ (_token s)) "refresh_token"
            else PyNone) eqn:Hrt; try reflexivity;
    unfold try_except, bind; rewrite serpens_openid_run; cbn;
    unfold extern, after_call; cbn;
    (destruct (token_service env _) as [tok|e]; cbn;
     [ destruct (token_setter (Some tok) (Session.with_client s) _)
         as [[?|e'] s' w'] eqn:Hset; [reflexivity|];
       assert (is_SerpensPostError e' = false) as ->;
       [ eapply token_setter_never_raises_post_error; rewrite Hset; reflexivity
       | reflexivity ]
     | destruct (is_rejection e) eqn:Hrej;
       [ rewrite (rejection_is_post_error e Hrej); reflexivity
       | destruct (is_SerpensPostError e); unfold raise; reflexivity ] ]).
Qed.

(** The last statement of [refresh_token] raises: no attribute
    [add_param_headers] exists on a session. *)
Lemma update_authorization_raises s w :
  update_authorization s w =
  MkRun (Raises (AttributeError "add_param_headers")) s w.
Proof. reflexivity. Qed.

(** [refresh_token] never returns: it ends with the exception of its
    refresh or acquisition, or with the one of its last statement. *)
Lemma refresh_token_run env s w :
  refresh_token env s w =
  MkRun (Raises (Session.refresh_error env s w))
    (self_after (refresh_or_acquire env s w))
    (world_after (refresh_or_acquire env s w)).
Proof.
  unfold refresh_token, Session.refresh_error, bind.
  destruct (refresh_or_acquire env s w) as [[[]|e] s' w']; reflexivity.
Qed.

(** *** The trace of a refresh *)

Lemma token_setter_world tok s w : world_after (token_setter tok s w) = w.
Proof.
  rewrite token_setter_run.
  destruct (Session.expiry_seconds (token_lifetime_fraction s) tok); reflexivity.
Qed.

Lemma get_token_trace env s w :
  trace (world_after (get_token env s w))
  = trace w ++ Session.acquisition_events s.
Proof.
  rewrite get_token_run.
  unfold Session.acquisition_events, Session.has_grant.
  destruct (Session.grant_type_of s) as [|g gs]; cbn.
  - by rewrite token_setter_world.
  - destruct (token_service env _) as [tok|e]; cbn.
    + rewrite token_setter_world. cbn. by rewrite <- app_assoc.
    + by rewrite <- app_assoc.
Qed.

Lemma acquisition_events_with_client s :
  Session.acquisition_events (Session.with_client s)
  = Session.acquisition_events s.
Proof. destruct s as [b f u p t to rn ci cs urn ch ea [c|]]; reflexivity. Qed.

Lemma refresh_or_acquire_trace env s w :
  trace (world_after (refresh_or_acquire env s w))
  = trace w ++ Session.refresh_events env s w.
Proof.
  rewrite refresh_or_acquire_run. unfold Session.refresh_events.
  destruct (Session.has_refresh_token s); [|apply get_token_trace].
  cbn. destruct (token_service env _) as [tok|e]; cbn.
  - by rewrite token_setter_world.
  - destruct (is_rejection e); cbn; [|reflexivity].
    rewrite get_token_trace, acquisition_events_with_client. cbn.
    by rewrite <- app_assoc.
Qed.

Lemma new_events_app {Self A} (w : World) (r : Run Self A) evs :
  trace (world_after r) = trace w ++ evs -> new_events w r = evs.
Proof. unfold new_events. intros ->. apply drop_app_length. Qed.

Lemma refresh_token_events env s w :
  new_events w (refresh_token env s w) = Session.refresh_events env s w.
Proof.
  apply new_events_app. rewrite refresh_token_run. cbn.
  apply refresh_or_acquire_trace.
Qed.

(** *** The verbs of the session *)

Lemma set_super_same s : set_super (super_ s) s = s.
Proof. destruct s; reflexivity. Qed.

Lemma delegated_run env v path data kwargs s w :
  Session.delegated env v path data kwargs s w =
  let ev := EvHttp (Session.issued env v path data kwargs s w) in
  MkRun
    match network env (trace w ++ [ev]) with
    | Returns r => Returns (Some r)
    | Raises e => if is_Exception e then Returns None else Raises e
    end
    s (after_call env ev w).
Proof.
  unfold Session.delegated, Session.issued, super.
  rewrite transport_send. cbn. by rewrite set_super_same.
Qed.

Lemma refresh_if_required_fresh env s w :
  clock w < _expires_at s ->
  _refresh_if_required env s w = MkRun (Returns tt) s w.
Proof.
  intros Hfresh. unfold _refresh_if_required, bind, now, gets.
  destruct (Z.geb_spec (clock w) (_expires_at s)); [lia|reflexivity].
Qed.

Lemma refresh_if_required_expired env s w :
  _expires_at s <= clock w ->
  _refresh_if_required env s w = refresh_token env s w.
Proof.
  intros Hexp. unfold _refresh_if_required, bind, now, gets.
  destruct (Z.geb_spec (clock w) (_expires_at s)); [reflexivity|lia].
Qed.

(** The result a verb of the session makes of the result of the
    transport: [send_post] drops the response. *)
Lemma session_send_fresh env v path data kwargs s w :
  clock w < _expires_at s ->
  send env v path data kwargs s w =
  let ev := EvHttp (Session.issued env v path data kwargs s w) in
  MkRun
    match network env (trace w ++ [ev]) with
    | Returns r => Returns match v with POST => None | _ => Some r end
    | Raises e => if is_Exception e then Returns None else Raises e
    end
    s (after_call env ev w).
Proof.
  intros Hfresh.
  pose proof (delegated_run env v path data kwargs s w) as Hd.
  unfold Session.delegated in Hd.
  destruct v; unfold send, send_get, send_post, send_put, send_delete, bind;
    rewrite ?(refresh_if_required_fresh env s w Hfresh);
    unfold ConnectionManager.send in Hd; cbv beta iota; rewrite Hd; cbn;
    destruct (network env _) as [r|e]; try reflexivity;
    destruct (is_Exception e); reflexivity.
Qed.

Lemma session_send_expired env v path data kwargs s w :
  _expires_at s <= clock w ->
  v = GET \/ v = POST ->
  send env v path data kwargs s w =
  MkRun (Raises (Session.refresh_error env s w))
    (self_after (refresh_or_acquire env s w))
    (world_after (refresh_or_acquire env s w)).
Proof.
  intros Hexp [-> | ->]; cbn; unfold send_get, send_post, bind;
    rewrite (refresh_if_required_expired env s w Hexp), refresh_token_run;
    reflexivity.
Qed.

Lemma session_send_inherited env v path data kwargs s w :
  v = PUT \/ v = DELETE ->
  send env v path data kwargs s w
  = Session.delegated env v path data kwargs s w.
Proof. intros [-> | ->]; reflexivity. Qed.

Lemma refresh_events_no_http env s w :
  count is_http (Session.refresh_events env s w) = 0%nat.
Proof.
  unfold Session.refresh_events, Session.acquisition_events,
    Session.refresh_call, Session.token_call.
  destruct (Session.has_refresh_token s), (Session.has_grant s); cbn;
    try reflexivity;
    destruct (token_service env _) as [tok|e]; cbn; try reflexivity;
    destruct (is_rejection e); reflexivity.
Qed.

(** ** Refresh: fallback and propagation *)

(** C1: when the refresh call of a verb made at or after the expiry
    fails with status 400 and a body containing one of the rejection
    phrases, [refresh_token] goes on with [get_token], run exactly once
    and after the refresh call, and what the caller of the verb receives
    is decided by that acquisition and the statement that follows it:
    the error of the refresh is dropped. *)
Theorem refresh_rejection_falls_back
    env s w body v path data kwargs :
  Session.has_refresh_token s = true ->
  token_service env (trace w ++ [Session.refresh_call s])
    = Raises (SerpensPostError 400 body) ->
  existsb (fun err => contains err body) list_errors = true ->
  _expires_at s <= clock w ->
  v = GET \/ v = POST ->
  let acquisition :=
    get_token env (Session.with_client s)
      (after_call env (Session.refresh_call s) w) in
  let r := send env v path data kwargs s w in
  refresh_or_acquire env s w = acquisition /\
  new_events w r = Session.refresh_call s :: Session.acquisition_events s /\
  count is_get_token (new_events w r) = 1%nat /\
  r = MkRun
        (Raises match value acquisition with
                | Returns _ => AttributeError "add_param_headers"
                | Raises e => e
                end)
        (self_after acquisition) (world_after acquisition).
Proof.
  intros Hrt Hts Hphrase Hexp Hv.
  assert (is_rejection (SerpensPostError 400 body) = true) as Hrej.
  { unfold is_rejection. rewrite Hphrase. reflexivity. }
  assert (refresh_or_acquire env s w
          = get_token env (Session.with_client s)
              (after_call env (Session.refresh_call s) w)) as Hrun.
  { rewrite refresh_or_acquire_run, Hrt. cbn. rewrite Hts, Hrej.
    reflexivity. }
  assert (Session.refresh_events env s w
          = Session.refresh_call s :: Session.acquisition_events s) as Hevs.
  { unfold Session.refresh_events. rewrite Hrt, Hts, Hrej. reflexivity. }
  cbv zeta.
  rewrite (session_send_expired env v path data kwargs s w Hexp Hv).
  unfold Session.refresh_error. rewrite <- Hrun.
  assert (new_events w
            (MkRun (A := option Response)
               (Raises match value (refresh_or_acquire env s w) with
                       | Returns _ => AttributeError "add_param_headers"
                       | Raises e => e
                       end)
               (self_after (refresh_or_acquire env s w))
               (world_after (refresh_or_acquire env s w)))
          = Session.refresh_call s :: Session.acquisition_events s) as Hnew.
  { apply new_events_app. cbn. rewrite refresh_or_acquire_trace.
    by rewrite Hevs. }
  repeat split.
  - exact Hnew.
  - rewrite Hnew. unfold Session.acquisition_events, Session.refresh_call.
    destruct (Session.has_grant s); reflexivity.
Qed.

(** C4: when the refresh call fails in any other way (another status,
    a body without a rejection phrase, or an exception of another
    class), [refresh_token] raises that very exception, status and body
    untouched; [get_token] is not entered, no acquisition is attempted,
    no request is sent, and the stored token and its expiry are as they
    were. *)
Theorem refresh_failure_propagates
    env s w e v path data kwargs :
  Session.has_refresh_token s = true ->
  token_service env (trace w ++ [Session.refresh_call s]) = Raises e ->
  is_rejection e = false ->
  _expires_at s <= clock w ->
  v = GET \/ v = POST ->
  let w1 := after_call env (Session.refresh_call s) w in
  let r := send env v path data kwargs s w in
  refresh_token env s w = MkRun (Raises e) (Session.with_client s) w1 /\
  r = MkRun (Raises e) (Session.with_client s) w1 /\
  new_events w r = [Session.refresh_call s] /\
  _token (self_after r) = _token s /\
  _expires_at (self_after r) = _expires_at s.
Proof.
  intros Hrt Hts Hrej Hexp Hv.
  assert (refresh_or_acquire env s w
          = MkRun (Raises e) (Session.with_client s)
              (after_call env (Session.refresh_call s) w)) as Hrun.
  { rewrite refresh_or_acquire_run, Hrt. cbn. rewrite Hts, Hrej.
    reflexivity. }
  cbv zeta.
  rewrite (session_send_expired env v path data kwargs s w Hexp Hv).
  rewrite refresh_token_run. unfold Session.refresh_error. rewrite Hrun. cbn.
  repeat split.
  apply new_events_app. reflexivity.
Qed.

(** ** The defect of [refresh_token] *)

(** C9, as amended: [refresh_token] never returns.  Its last statement
    looks up [add_param_headers], which no session has (the method that
    sets a header is [set_param_headers]), so when the refresh or
    acquisition before it returns, the call ends with an
    [AttributeError]; when the refresh or acquisition raises, that
    exception is the one that leaves [refresh_token].  Hence a [send_get]
    or [send_post] made at or after the expiry raises, and no request is
    sent. *)
Theorem refresh_token_never_returns
    env s w v path data kwargs :
  _expires_at s <= clock w ->
  v = GET \/ v = POST ->
  let before := refresh_or_acquire env s w in
  let raised :=
    match value before with
    | Returns _ => AttributeError "add_param_headers"
    | Raises e => e
    end in
  hasattr "add_param_headers" = false /\
  hasattr "set_param_headers" = true /\
  refresh_token env s w
    = MkRun (Raises raised) (self_after before) (world_after before) /\
  send env v path data kwargs s w
    = MkRun (Raises raised) (self_after before) (world_after before) /\
  count is_http (new_events w (send env v path data kwargs s w)) = 0%nat.
Proof.
  intros Hexp Hv. cbv zeta.
  rewrite (session_send_expired env v path data kwargs s w Hexp Hv).
  rewrite refresh_token_run. unfold Session.refresh_error.
  repeat split.
  erewrite new_events_app; [apply (refresh_events_no_http env s w)|].
  apply refresh_or_acquire_trace.
Qed.

(** ** TokenService calls per verb *)

Lemma refresh_events_ts_calls env s w :
  count is_ts_call (Session.refresh_events env s w)
  = Stated.token_service_calls env s w.
Proof.
  unfold Session.refresh_events, Stated.token_service_calls,
    Session.acquisition_events, Session.refresh_call, Session.token_call.
  destruct (Session.has_refresh_token s), (Session.has_grant s); cbn;
    try reflexivity;
    destruct (token_service env _) as [tok|e]; cbn; try reflexivity;
    destruct (is_rejection e); reflexivity.
Qed.

(** C2, as amended: a verb called before the expiry makes no
    TokenService call and hands its request straight to the transport;
    [send_get] and [send_post] called at or after the expiry run
    [refresh_token] first, whose TokenService calls come before anything
    else the verb does: one refresh when a refresh token is stored,
    followed by one acquisition when that refresh is rejected and a grant
    is configured; one acquisition when no refresh token is stored and a
    grant is configured; none when there is neither. *)
Theorem verb_token_service_calls
    env v path data kwargs s w :
  clock w < _expires_at s \/ v = GET \/ v = POST ->
  let r := send env v path data kwargs s w in
  count is_ts_call (new_events w r)
    = (if clock w <? _expires_at s then 0%nat
       else Stated.token_service_calls env s w) /\
  if clock w <? _expires_at s
  then new_events w r = [EvHttp (Session.issued env v path data kwargs s w)]
  else exists rest,
      new_events w r = Session.refresh_events env s w ++ rest /\
      count is_http (Session.refresh_events env s w) = 0%nat /\
      count is_ts_call rest = 0%nat.
Proof.
  intros Hcase. cbv zeta.
  destruct (Z.ltb_spec (clock w) (_expires_at s)) as [Hfresh|Hexp].
  - rewrite (session_send_fresh env v path data kwargs s w Hfresh). cbv zeta.
    rewrite (new_events_app w _
               [EvHttp (Session.issued env v path data kwargs s w)])
      by reflexivity.
    split; reflexivity.
  - assert (v = GET \/ v = POST) as Hv by (destruct Hcase; [lia|assumption]).
    rewrite (session_send_expired env v path data kwargs s w Hexp Hv).
    rewrite (new_events_app w _ (Session.refresh_events env s w))
      by apply refresh_or_acquire_trace.
    split; [apply refresh_events_ts_calls|].
    exists []. rewrite app_nil_r.
    split; [reflexivity|]. split; [apply refresh_events_no_http|reflexivity].
Qed.

(** ** The expiry computed by the setter of [token] *)

Lemma nine_tenths_ok_on_sound len :
  forall lo, nine_tenths_ok_on lo len = true ->
  forall L, lo <= L < lo + Z.pos len -> nine_tenths_ok L = true.
Proof.
  induction len as [half IH|half IH|]; intros lo Hon L HL; cbn in Hon.
  - apply andb_prop in Hon as [Hon Hhi]. apply andb_prop in Hon as [Hlo Hmid].
    destruct (Z.eq_dec L lo) as [->|Hne]; [exact Hlo|].
    destruct (Z.lt_ge_cases L (lo + 1 + Z.pos half)).
    + apply (IH (lo + 1)); [exact Hmid|lia].
    + apply (IH (lo + 1 + Z.pos half)); [exact Hhi|lia].
  - apply andb_prop in Hon as [Hlo Hhi].
    destruct (Z.lt_ge_cases L (lo + Z.pos half)).
    + apply (IH lo); [exact Hlo|lia].
    + apply (IH (lo + Z.pos half)); [exact Hhi|lia].
  - assert (L = lo) as -> by lia. exact Hon.
Qed.

Lemma nine_tenths_checked : nine_tenths_ok_on 0 checked_lifetimes = true.
Proof. vm_compute. reflexivity. Qed.

(** With the default fraction, the whole seconds are the whole part of
    nine tenths of the lifetime. *)
Lemma default_fraction_seconds (tok : pydict) L :
  tok !! "expires_in" = Some (PyInt L) ->
  0 <= L < Z.pos checked_lifetimes ->
  Session.expiry_seconds default_token_lifetime_fraction (Some tok)
  = Returns (9 * L / 10).
Proof.
  intros Hlookup HL.
  pose proof (nine_tenths_ok_on_sound _ _ nine_tenths_checked L HL) as Hok.
  unfold nine_tenths_ok in Hok.
  unfold Session.expiry_seconds, truthy_dict.
  assert (tok <> ∅) as Hne.
  { intros ->. by rewrite lookup_empty in Hlookup. }
  rewrite bool_decide_eq_false_2 by exact Hne. cbn. rewrite Hlookup.
  destruct (float_mul default_token_lifetime_fraction (PyInt L)) as [x|];
    [|discriminate].
  destruct (int_of_float x) as [n|]; [|discriminate].
  apply Z.eqb_eq in Hok. by subst.
Qed.


(** ** Construction *)

(** When a sequence returns, what holds of the object after its
    continuation holds of the object after the sequence. *)
Lemma bind_returns {Self A B} (P : Self -> Prop)
    (m : Py Self A) (k : A -> Py Self B) s w b :
  value (bind m k s w) = Returns b ->
  (forall a s1 w1,
     value (k a s1 w1) = Returns b -> P (self_after (k a s1 w1))) ->
  P (self_after (bind m k s w)).
Proof.
  unfold bind. destruct (m s w) as [[a|e] s1 w1]; [|discriminate].
  intros Hret Hk. by apply Hk.
Qed.

(** A session built from a server URL alone: no TokenService call is
    made, no token is stored, the headers are empty, and the expiry is
    the instant of construction. *)
Lemma new_only_server_url env url w :
  new env (only_server_url url) w =
  MkRun (Returns tt)
    {| super_ := {| _base_url := url;
                    _headers := fresh (dom (heap w));
                    _timeout := 60;
                    _verify := true |};
       token_lifetime_fraction := default_token_lifetime_fraction;
       _username := None;
       _password := None;
       _token := None;
       totp := None;
       realm_name := Some "master";
       _client_id := Some "admin-cli";
       _client_secret_key := None;
       user_realm_name := None;
       custom_headers := None;
       _expires_at := clock w + timedelta_seconds 0;
       _serpens_openid := None |}
    {| heap := <[fresh (dom (heap w)) := ∅]> (heap w);
       clock := clock w;
       trace := trace w ++ [EvGetToken] |}.
Proof. reflexivity. Qed.

(** C5: a session built from a server URL alone makes no TokenService
    call, stores no token and holds no [Authorization] header; but its
    expiry is the instant of construction, so whenever [send_get] or
    [send_post] is called afterwards the session runs [refresh_token],
    the call raises [AttributeError], and no request is sent. *)
Theorem unauthenticated_session_cannot_send
    env url w (waited : N) path data kwargs :
  let built := new env (only_server_url url) w in
  let s := self_after built in
  let w' := {| heap := heap (world_after built);
               clock := clock (world_after built) + Z.of_N waited;
               trace := trace (world_after built) |} in
  value built = Returns tt /\
  count is_ts_call (new_events w built) = 0%nat /\
  _token s = None /\
  Session.headers s w' !! "Authorization" = None /\
  value (send env GET path data kwargs s w')
    = Raises (AttributeError "add_param_headers") /\
  value (send env POST path data kwargs s w')
    = Raises (AttributeError "add_param_headers") /\
  count is_http (new_events w' (send env GET path data kwargs s w')) = 0%nat /\
  count is_http (new_events w' (send env POST path data kwargs s w')) = 0%nat.
Proof.
  cbv zeta. rewrite new_only_server_url.
  cbn [value self_after world_after heap clock trace].
  set (s := {| super_ := _ |}).
  set (w' := {| heap := <[fresh (dom (heap w)) := ∅]> (heap w);
                clock := clock w + Z.of_N waited;
                trace := trace w ++ [EvGetToken] |}).
  assert (_expires_at s <= clock w') as Hexp.
  { cbn. unfold timedelta_seconds. lia. }
  assert (refresh_or_acquire env s w'
          = MkRun (Returns tt) (Session.stored None (clock w') 0 s)
              (logged EvGetToken w')) as Hrun.
  { rewrite refresh_or_acquire_run. cbn.
    rewrite get_token_run. cbn. by rewrite token_setter_run. }
  assert (forall v, v = GET \/ v = POST ->
            send env v path data kwargs s w'
            = MkRun (Raises (AttributeError "add_param_headers"))
                (Session.stored None (clock w') 0 s) (logged EvGetToken w'))
    as Hsend.
  { intros v Hv.
    rewrite (session_send_expired env v path data kwargs s w' Hexp Hv).
    unfold Session.refresh_error. by rewrite Hrun. }
  rewrite (Hsend GET) by (by left). rewrite (Hsend POST) by (by right).
  repeat split.
  - rewrite (new_events_app w _ [EvGetToken]) by reflexivity. reflexivity.
  - unfold Session.headers, headers_of. cbn. by rewrite lookup_insert_eq.
  - rewrite (new_events_app w' _ [EvGetToken]) by reflexivity. reflexivity.
  - rewrite (new_events_app w' _ [EvGetToken]) by reflexivity. reflexivity.
Qed.

(** C6: on a session whose token has not expired, when the server
    answers the POST request with a response, the transport returns that
    response to [send_post] of the session, which returns [None] to its
    caller. *)
Theorem session_post_drops_response
    env path data kwargs s w response :
  clock w < _expires_at s ->
  network env
    (trace w ++ [EvHttp (Session.issued env POST path data kwargs s w)])
    = Returns response ->
  value (Session.delegated env POST path data kwargs s w)
    = Returns (Some response) /\
  value (send env POST path data kwargs s w) = Returns None.
Proof.
  intros Hfresh Hnet.
  rewrite delegated_run, (session_send_fresh env POST path data kwargs s w Hfresh).
  cbn. rewrite Hnet. split; reflexivity.
Qed.

(** C8: whatever [timeout] a session is constructed with, the call of
    [SerpensConnectionManager.__init__] that ends the construction sets
    the timeout to 60, and 60 is the timeout of every request the
    session issues. *)
Theorem session_timeout_is_sixty
    env a w v path data kwargs w' :
  value (new env a w) = Returns tt ->
  _timeout (super_ (self_after (new env a w))) = 60 /\
  rq_timeout (Session.issued env v path data kwargs
                (self_after (new env a w)) w') = 60.
Proof.
  intros Hret.
  assert (_timeout (super_ (self_after (new env a w))) = 60) as Hsixty.
  { revert Hret. unfold new, __init__. generalize blank as s0. revert w.
    repeat (intros w s0 Hret;
            apply (bind_returns (fun s => _timeout (super_ s) = 60)
                     _ _ _ _ _ Hret);
            clear w s0 Hret; intros ? w s0; cbv beta; revert w s0).
    reflexivity. }
  split; [exact Hsixty|]. exact Hsixty.
Qed.

(** * The theorems at concrete sessions *)

Module Import At.

Import Scenario.

(** The transport of a built session, on a network where every request
    fails to connect: [send_get] returns [None]. *)
Lemma transport_error_gives_no_response_witness :
  value (ConnectionManager.send env_offline GET "users" DataNone []
           (super_ (session env_offline)) (later env_offline 10))
  = Returns None.
Proof.
  rewrite (transport_error_gives_no_response env_offline GET "users" DataNone []
             (super_ (session env_offline)) (later env_offline 10)
             (RequestException "ConnectionError"));
    reflexivity.
Defined.


(** A session on a token of 300 seconds, 300 seconds later; the refresh
    is rejected with "Session not active": [get_token] is entered once,
    and the caller of [send_get] receives the [AttributeError] of the
    last statement of [refresh_token]. *)
Lemma refresh_rejection_falls_back_witness :
  let env := env_refresh_fails session_not_active in
  let r := send env GET "users" DataNone [] (session env) (later env 300) in
  count is_get_token (new_events (later env 300) r) = 1%nat /\
  value r = Raises (AttributeError "add_param_headers").
Proof.
  cbv zeta.
  destruct (refresh_rejection_falls_back
              (env_refresh_fails session_not_active)
              (session (env_refresh_fails session_not_active))
              (later (env_refresh_fails session_not_active) 300)
              "invalid_grant: Session not active"
              GET "users" DataNone [])
    as (_ & _ & Hcount & Hrun);
    [reflexivity | reflexivity | reflexivity | by vm_compute | by left |].
  split; [exact Hcount|]. rewrite Hrun. vm_compute. reflexivity.
Defined.

(** The same session when the refresh fails with status 500: the caller
    of [send_get] receives that error, and the refresh call is the only
    event. *)
Lemma refresh_failure_propagates_witness :
  let env := env_refresh_fails server_error in
  let r := send env GET "users" DataNone [] (session env) (later env 300) in
  value r = Raises (SerpensPostError 500 "Internal Server Error") /\
  new_events (later env 300) r = [Session.refresh_call (session env)].
Proof.
  cbv zeta.
  destruct (refresh_failure_propagates
              (env_refresh_fails server_error)
              (session (env_refresh_fails server_error))
              (later (env_refresh_fails server_error) 300)
              server_error GET "users" DataNone [])
    as (_ & Hrun & Hevents & _);
    [reflexivity | reflexivity | reflexivity | by vm_compute | by left |].
  split; [|exact Hevents]. rewrite Hrun. reflexivity.
Defined.

(** C9, as stated, fails where the refresh fails with status 500: what
    [refresh_token] raises is the [SerpensPostError], not an
    [AttributeError]. *)
Lemma refresh_error_is_not_attribute_error :
  ~ Stated.raises_attribute_error (env_refresh_fails server_error)
      (session (env_refresh_fails server_error))
      (later (env_refresh_fails server_error) 300).
Proof.
  intros [attr Hraises]. vm_compute in Hraises. discriminate Hraises.
Qed.

(** A session whose refresh succeeds, 300 seconds after it was built:
    [send_get] raises the [AttributeError] and sends nothing. *)
Lemma refresh_token_never_returns_witness :
  let r := send env_offline GET "users" DataNone []
             (session env_offline) (later env_offline 300) in
  value r = Raises (AttributeError "add_param_headers") /\
  count is_http (new_events (later env_offline 300) r) = 0%nat.
Proof.
  cbv zeta.
  destruct (refresh_token_never_returns env_offline (session env_offline)
              (later env_offline 300) GET "users" DataNone [])
    as (_ & _ & _ & Hrun & Hnone); [by vm_compute | by left |].
  split; [|exact Hnone]. rewrite Hrun. vm_compute. reflexivity.
Defined.

(** C2, as stated, fails on the fallback: the verb called at the expiry
    makes two TokenService calls, the rejected refresh and the
    acquisition. *)
Lemma fallback_makes_two_calls :
  ~ Stated.one_call_when_expired (env_refresh_fails session_not_active)
      GET "users" DataNone []
      (session (env_refresh_fails session_not_active))
      (later (env_refresh_fails session_not_active) 300).
Proof.
  unfold Stated.one_call_when_expired. vm_compute. discriminate.
Qed.

(** The same call, counted by the amended statement. *)
Lemma verb_token_service_calls_witness :
  let env := env_refresh_fails session_not_active in
  count is_ts_call
    (new_events (later env 300)
       (send env GET "users" DataNone [] (session env) (later env 300)))
  = 2%nat.
Proof.
  cbv zeta.
  destruct (verb_token_service_calls
              (env_refresh_fails session_not_active) GET "users" DataNone []
              (session (env_refresh_fails session_not_active))
              (later (env_refresh_fails session_not_active) 300))
    as [Hcount _]; [right; by left |].
  rewrite Hcount. vm_compute. reflexivity.
Defined.



(** A session with a fresh token and a server that answers 200: the
    transport returns the response, [send_post] of the session returns
    [None]. *)
Lemma session_post_drops_response_witness :
  let env := env_refresh_fails server_error in
  value (Session.delegated env POST "users" (DataStr "{}") []
           (session env) (later env 10))
    = Returns (Some ok) /\
  value (send env POST "users" (DataStr "{}") [] (session env) (later env 10))
    = Returns None.
Proof.
  apply (session_post_drops_response (env_refresh_fails server_error)
           "users" (DataStr "{}") []
           (session (env_refresh_fails server_error))
           (later (env_refresh_fails server_error) 10) ok);
    [by vm_compute | reflexivity].
Defined.

(** A session constructed with [timeout=30] issues its requests with a
    timeout of 60. *)
Lemma session_timeout_is_sixty_witness :
  let built := new env_offline (args (Some (token_of 300)) 30)
                 module_imported in
  arg_timeout (args (Some (token_of 300)) 30) = 30 /\
  rq_timeout (Session.issued env_offline GET "users" DataNone []
                (self_after built) (world_after built)) = 60.
Proof.
  split; [reflexivity|].
  apply (session_timeout_is_sixty env_offline (args (Some (token_of 300)) 30)
           module_imported GET "users" DataNone []).
  vm_compute. reflexivity.
Defined.

End At.

(** * Further properties of the transport *)

(** ** The header mapping *)

(** X1: a header set with [set_param_headers] is read back by
    [get_param_headers] and reported by [has_param_headers]; every other
    key reads as before; the object keeps its reference. *)
Theorem header_set_then_get key val other (s : SerpensConnectionManager) w :
  let r := ConnectionManager.set_param_headers key val s w in
  value r = Returns tt /\
  self_after r = s /\
  value (ConnectionManager.get_param_headers key s (world_after r))
    = Returns (Some val) /\
  value (ConnectionManager.has_param_headers key s (world_after r))
    = Returns true /\
  value (ConnectionManager.get_param_headers other s (world_after r))
    = if decide (key = other) then Returns (Some val)
      else value (ConnectionManager.get_param_headers other s w).
Proof.
  cbn. rewrite !lookup_insert_eq. cbn. rewrite lookup_insert_eq.
  repeat split.
  rewrite lookup_insert. destruct (decide (key = other)); reflexivity.
Qed.

(** X2: after [remove_param_headers] the key reads as [None] and is
    reported absent, every other key reads as before, and nothing is
    raised whether or not the key was present. *)
Theorem header_remove_then_get key other (s : SerpensConnectionManager) w :
  let r := ConnectionManager.remove_param_headers key s w in
  value r = Returns tt /\
  self_after r = s /\
  value (ConnectionManager.get_param_headers key s (world_after r))
    = Returns None /\
  value (ConnectionManager.has_param_headers key s (world_after r))
    = Returns false /\
  value (ConnectionManager.get_param_headers other s (world_after r))
    = if decide (key = other) then Returns None
      else value (ConnectionManager.get_param_headers other s w).
Proof.
  cbn. rewrite !lookup_insert_eq. cbn. rewrite lookup_delete_eq.
  repeat split.
  rewrite lookup_delete. destruct (decide (key = other)); reflexivity.
Qed.

(** X3: removing a key that is absent leaves the headers as they
    were. *)
Theorem header_remove_absent key (s : SerpensConnectionManager) w :
  headers_of s w !! key = None ->
  headers_of s (world_after (ConnectionManager.remove_param_headers key s w))
  = headers_of s w.
Proof.
  intros Habsent. unfold headers_of in *. cbn. rewrite lookup_insert_eq. cbn.
  by apply delete_id.
Qed.

(** X4: setting a key twice leaves one entry, with the value written
    last: the store is the one a single [set_param_headers] of the last
    value gives. *)
Theorem header_last_write_wins key first last (s : SerpensConnectionManager) w :
  let once := ConnectionManager.set_param_headers key last s w in
  let twice :=
    ConnectionManager.set_param_headers key last s
      (world_after (ConnectionManager.set_param_headers key first s w)) in
  world_after twice = world_after once /\
  headers_of s (world_after twice) = <[key := last]> (headers_of s w) /\
  size (headers_of s (world_after twice))
  = size (<[key := first]> (headers_of s w)).
Proof.
  unfold headers_of. cbn. rewrite !lookup_insert_eq. cbn.
  rewrite !insert_insert_eq. repeat split.
  by rewrite !map_size_insert.
Qed.

(** ** The verbs *)


(** X6: an exception that is not an [Exception] (a
    [KeyboardInterrupt]) raised while the request is made is not caught:
    the verb raises it. *)
Theorem transport_does_not_catch_interrupt env v path data kwargs s w e :
  network env
    (trace w ++ [EvHttp (ConnectionManager.issued env v path data kwargs s w)])
    = Raises e ->
  is_Exception e = false ->
  value (ConnectionManager.send env v path data kwargs s w) = Raises e.
Proof.
  intros Hnet Hbase. rewrite transport_send. cbn. by rewrite Hnet, Hbase.
Qed.

(** X7: a header set on a transport is carried by the next request, and
    a header removed is not. *)
Theorem header_change_reaches_next_request
    env v path data kwargs key val s w :
  let set := world_after (ConnectionManager.set_param_headers key val s w) in
  let removed := world_after (ConnectionManager.remove_param_headers key s w) in
  (exists rq,
     new_events set (ConnectionManager.send env v path data kwargs s set)
       = [EvHttp rq] /\
     rq_headers rq !! key = Some val) /\
  (exists rq,
     new_events removed
       (ConnectionManager.send env v path data kwargs s removed)
       = [EvHttp rq] /\
     rq_headers rq !! key = None).
Proof.
  cbv zeta. split.
  - eexists. split.
    + rewrite transport_send. apply new_events_app. reflexivity.
    + cbn. rewrite lookup_insert_eq. cbn. apply lookup_insert_eq.
  - eexists. split.
    + rewrite transport_send. apply new_events_app. reflexivity.
    + cbn. rewrite lookup_insert_eq. cbn. apply lookup_delete_eq.
Qed.

(** * Further properties of the credential session *)

(** ** Acquisition *)

(** X8: [get_token] selects the grant from the credentials alone: a
    client secret selects [client_credentials], also when a username and
    a password are configured; otherwise a username with a password
    selects [password]; otherwise the TokenService is not called. *)
Theorem grant_selection env s w :
  new_events w (get_token env s w) =
  EvGetToken ::
  (if truthy (_client_secret_key s) then
     [EvTokenCall (Session.client_of s) (_username s) (_password s)
        ["client_credentials"] (totp s)]
   else if truthy (_username s) && truthy (_password s) then
     [EvTokenCall (Session.client_of s) (_username s) (_password s)
        ["password"] (totp s)]
   else []).
Proof.
  apply new_events_app. rewrite get_token_trace.
  unfold Session.acquisition_events, Session.has_grant, Session.token_call,
    Session.grant_type_of.
  destruct (truthy (_client_secret_key s)); [reflexivity|].
  destruct (truthy (_username s) && truthy (_password s)); reflexivity.
Qed.

(** X9: without a client secret and without both a username and a
    password, [get_token] makes no TokenService call and stores no
    token: whatever token the session held is replaced by [None], with
    the present instant as expiry. *)
Theorem get_token_without_grant_forgets_token env s w :
  Session.has_grant s = false ->
  get_token env s w
  = MkRun (Returns tt) (Session.stored None (clock w) 0 s)
      (logged EvGetToken w).
Proof.
  intros Hgrant. rewrite get_token_run. unfold Session.has_grant in Hgrant.
  destruct (Session.grant_type_of s); [|discriminate].
  by rewrite token_setter_run.
Qed.

(** X10: when the acquisition raises, [get_token] raises the same
    exception, and the stored token and its expiry are as they were. *)
Theorem get_token_failure_keeps_token env s w e :
  Session.has_grant s = true ->
  token_service env (trace w ++ [EvGetToken; Session.token_call s]) = Raises e ->
  let r := get_token env s w in
  value r = Raises e /\
  _token (self_after r) = _token s /\
  _expires_at (self_after r) = _expires_at s /\
  new_events w r = [EvGetToken; Session.token_call s].
Proof.
  intros Hgrant Hts. cbv zeta.
  assert (get_token env s w
          = MkRun (Raises e) (Session.with_client s)
              (after_call env (Session.token_call s) (logged EvGetToken w)))
    as ->.
  { rewrite get_token_run. unfold Session.has_grant in Hgrant.
    destruct (Session.grant_type_of s); [discriminate|].
    cbn. rewrite <- app_assoc. cbn. by rewrite Hts. }
  repeat split. apply new_events_app. cbn. by rewrite <- app_assoc.
Qed.

(** X11: a token the acquisition returns is stored with an expiry
    counted from the instant the call returned: with the default
    fraction and a lifetime of [L] seconds, [0 <= L < 2^17], the expiry
    is the clock before the call, plus the time the call took, plus the
    whole part of [0.9 * L] seconds. *)
Theorem acquired_token_is_stored env s w (tok : pydict) L :
  Session.has_grant s = true ->
  token_service env (trace w ++ [EvGetToken; Session.token_call s])
    = Returns tok ->
  tok !! "expires_in" = Some (PyInt L) ->
  token_lifetime_fraction s = default_token_lifetime_fraction ->
  0 <= L < Z.pos checked_lifetimes ->
  let r := get_token env s w in
  value r = Returns tt /\
  _token (self_after r) = Some tok /\
  _expires_at (self_after r)
    = clock w + elapsed env (trace w ++ [EvGetToken; Session.token_call s])
      + 1000000 * (9 * L / 10).
Proof.
  intros Hgrant Hts Hlookup Hf HL. cbv zeta.
  rewrite get_token_run. unfold Session.has_grant in Hgrant.
  destruct (Session.grant_type_of s); [discriminate|].
  cbn. rewrite <- app_assoc. cbn. rewrite Hts.
  rewrite token_setter_run.
  assert (token_lifetime_fraction (Session.with_client s)
          = default_token_lifetime_fraction) as -> by (by destruct s).
  rewrite (default_fraction_seconds tok L Hlookup HL). cbn.
  repeat split. unfold timedelta_seconds.
  replace ((trace w ++ [EvGetToken]) ++ [Session.token_call s])
    with (trace w ++ [EvGetToken; Session.token_call s])
    by (by rewrite <- app_assoc).
  lia.
Qed.

(** X12: the TokenService client is built once: after its first use the
    session yields the same client, whatever its realm, client id,
    secret, URL or timeout have become in between. *)
Theorem token_client_is_built_once s w (change : Self -> Self) w' :
  (forall s0, _serpens_openid (change s0) = _serpens_openid s0) ->
  value (serpens_openid (change (self_after (serpens_openid s w))) w')
  = value (serpens_openid s w).
Proof.
  intros Hkeeps. rewrite !serpens_openid_run. cbn.
  unfold Session.client_of at 1. rewrite Hkeeps. cbn.
  reflexivity.
Qed.

(** ** Construction *)

Lemma bind_token_setter {B} assigned (k : unit -> Py Self B) s w :
  bind (token_setter assigned) k s w =
  match Session.expiry_seconds (token_lifetime_fraction s) assigned with
  | Returns n => k tt (Session.stored assigned (clock w) n s) w
  | Raises e => MkRun (Raises e) (set_token assigned s) w
  end.
Proof.
  unfold bind. rewrite token_setter_run.
  destruct (Session.expiry_seconds (token_lifetime_fraction s) assigned);
    reflexivity.
Qed.

(** The construction up to the assignment of the token: the attributes
    are assigned from the arguments, and the statements that follow run
    on the object they give. *)
Lemma new_stores_token env a w :
  new env a w =
  match Session.expiry_seconds default_token_lifetime_fraction (arg_token a) with
  | Raises e =>
      MkRun (Raises e)
        (set_token (arg_token a)
           (set_password (arg_password a)
              (set_username (arg_username a)
                 (set_super
                    (ConnectionManager.set_base_url (arg_server_url a)
                       ConnectionManager.blank)
                    (set_token_lifetime_fraction
                       default_token_lifetime_fraction blank)))))
        w
  | Returns n =>
      let s1 :=
        {| super_ := {| _base_url := arg_server_url a;
                        _headers := default_headers;
                        _timeout := arg_timeout a;
                        _verify := arg_verify a |};
           token_lifetime_fraction := default_token_lifetime_fraction;
           _username := arg_username a;
           _password := arg_password a;
           _token := arg_token a;
           totp := arg_totp a;
           realm_name := arg_realm_name a;
           _client_id := arg_client_id a;
           _client_secret_key := arg_client_secret_key a;
           user_realm_name := arg_user_realm_name a;
           custom_headers := None;
           _expires_at := clock w + timedelta_seconds n;
           _serpens_openid := None |} in
      (match arg_token a with
       | None => get_token env
       | Some _ => ret tt
       end ;;;
       tok <- gets _token ;;
       headers <-
         (match tok with
          | Some _ =>
              authorization <- bearer ;;
              new_dict {[ "Authorization" := authorization;
                          "Content-Type" := "application/json" ]}
          | None => new_dict ∅
          end) ;;
       super (assign (ConnectionManager.set_headers headers)) ;;;
       assign (set_custom_headers (arg_custom_headers a)) ;;;
       base_url <- super (gets _base_url) ;;
       headers <- super (gets _headers) ;;
       verify <- super (gets _verify) ;;
       super (ConnectionManager.__init__ base_url (Some headers) (Some 60)
                (Some verify))) s1 w
  end.
Proof.
  unfold new, __init__.
  do 4 (unfold bind at 1; cbn [assign super value self_after world_after]).
  rewrite bind_token_setter.
  cbn [token_lifetime_fraction set_password set_username set_super
       set_token_lifetime_fraction blank].
  destruct (Session.expiry_seconds default_token_lifetime_fraction (arg_token a));
    reflexivity.
Qed.

(** X13: a session constructed on a token makes no call at all; it
    stores the token with its expiry, and its headers are a new mapping
    of exactly two entries, [Authorization] with the bearer token and
    [Content-Type]: the [custom_headers] argument is kept as an
    attribute, and is not among the headers. *)
Theorem construction_on_token env a w (tok : pydict) L t :
  arg_token a = Some tok ->
  tok !! "expires_in" = Some (PyInt L) ->
  0 <= L < Z.pos checked_lifetimes ->
  tok !! "access_token" = Some (PyStr t) ->
  let r := new env a w in
  value r = Returns tt /\
  trace (world_after r) = trace w /\
  _token (self_after r) = Some tok /\
  _expires_at (self_after r) = clock w + 1000000 * (9 * L / 10) /\
  Session.headers (self_after r) (world_after r) = Built.headers_for t /\
  heap (world_after r)
    = <[fresh (dom (heap w)) := Built.headers_for t]> (heap w) /\
  custom_headers (self_after r) = arg_custom_headers a.
Proof.
  intros Htok Hexp HL Hacc. cbv zeta.
  rewrite new_stores_token, Htok, (default_fraction_seconds tok L Hexp HL).
  cbv zeta. unfold bind, bearer, gets, ret, new_dict, super, assign. cbn.
  unfold dict_get. rewrite Hacc. cbn.
  repeat split.
  - unfold timedelta_seconds. lia.
  - unfold Session.headers, headers_of. cbn. by rewrite lookup_insert_eq.
Qed.

(** X14: a construction on a token that has no string under
    [access_token] (an empty dictionary among them) raises [TypeError]
    while building the [Authorization] header, and makes no call. *)
Theorem construction_needs_access_token env a w (tok : pydict) n :
  arg_token a = Some tok ->
  Session.expiry_seconds default_token_lifetime_fraction (Some tok)
    = Returns n ->
  (forall t, tok !! "access_token" <> Some (PyStr t)) ->
  let r := new env a w in
  value r = Raises (TypeError "can only concatenate str to str") /\
  world_after r = w.
Proof.
  intros Htok Hexp Hacc. cbv zeta.
  rewrite new_stores_token, Htok, Hexp.
  cbv zeta. unfold bind, bearer, gets, ret, new_dict, super, assign. cbn.
  unfold dict_get.
  destruct (tok !! "access_token") as [[| | |t]|] eqn:Hlookup; cbn;
    try (split; reflexivity).
  by destruct (Hacc t).
Qed.

(** X15: assigning a token that is not empty and has no [expires_in]
    raises [KeyError]; the token has been replaced by then and the
    expiry has not, so the two no longer belong together; a construction
    on such a token raises the same error. *)
Theorem token_without_lifetime_is_half_stored env a (tok : pydict) s w :
  tok <> ∅ ->
  tok !! "expires_in" = None ->
  let r := token_setter (Some tok) s w in
  value r = Raises (KeyError "expires_in") /\
  _token (self_after r) = Some tok /\
  _expires_at (self_after r) = _expires_at s /\
  (arg_token a = Some tok ->
   value (new env a w) = Raises (KeyError "expires_in")).
Proof.
  intros Hne Hexp. cbv zeta.
  assert (forall f, Session.expiry_seconds f (Some tok)
                    = Raises (KeyError "expires_in")) as Hraises.
  { intros f. unfold Session.expiry_seconds, truthy_dict.
    rewrite bool_decide_eq_false_2 by exact Hne. cbn. by rewrite Hexp. }
  rewrite token_setter_run, Hraises. repeat split.
  intros Htok. by rewrite new_stores_token, Htok, Hraises.
Qed.

Lemma get_token_granted env s w :
  Session.has_grant s = true ->
  get_token env s w =
  let w1 := after_call env (Session.token_call s) (logged EvGetToken w) in
  match token_service env (trace w ++ [EvGetToken; Session.token_call s]) with
  | Returns tok => token_setter (Some tok) (Session.with_client s) w1
  | Raises e => MkRun (Raises e) (Session.with_client s) w1
  end.
Proof.
  intros Hgrant. rewrite get_token_run. unfold Session.has_grant in Hgrant.
  destruct (Session.grant_type_of s); [discriminate|].
  cbn. by rewrite <- app_assoc.
Qed.

(** The object a construction without token runs [get_token] on. *)
Lemma construction_first_call a t :
  Built.has_grant a = true ->
  let s1 :=
    {| super_ := {| _base_url := arg_server_url a;
                    _headers := default_headers;
                    _timeout := arg_timeout a;
                    _verify := arg_verify a |};
       token_lifetime_fraction := default_token_lifetime_fraction;
       _username := arg_username a;
       _password := arg_password a;
       _token := None;
       totp := arg_totp a;
       realm_name := arg_realm_name a;
       _client_id := arg_client_id a;
       _client_secret_key := arg_client_secret_key a;
       user_realm_name := arg_user_realm_name a;
       custom_headers := None;
       _expires_at := t;
       _serpens_openid := None |} in
  Session.has_grant s1 = true /\
  Session.token_call s1 = Built.acquisition a /\
  Session.client_of s1 = Built.client a.
Proof.
  unfold Built.has_grant, Session.has_grant, Session.token_call,
    Built.acquisition, Session.grant_type_of, Session.client_of, Built.client.
  cbn.
  destruct (truthy (arg_client_secret_key a)); cbn; [by repeat split|].
  intros ->. by repeat split.
Qed.

(** X16: a session constructed without a token and with credentials
    acquires its token with one TokenService call, through a client that
    carries the [timeout] argument, and puts the acquired access token
    in its [Authorization] header; its own requests have the timeout
    60. *)
Theorem construction_acquires_token env a w (tok : pydict) L t :
  arg_token a = None ->
  Built.has_grant a = true ->
  token_service env (trace w ++ [EvGetToken; Built.acquisition a])
    = Returns tok ->
  tok !! "expires_in" = Some (PyInt L) ->
  0 <= L < Z.pos checked_lifetimes ->
  tok !! "access_token" = Some (PyStr t) ->
  let r := new env a w in
  value r = Returns tt /\
  new_events w r = [EvGetToken; Built.acquisition a] /\
  _serpens_openid (self_after r) = Some (Built.client a) /\
  oid_timeout (Built.client a) = arg_timeout a /\
  _token (self_after r) = Some tok /\
  Session.headers (self_after r) (world_after r) = Built.headers_for t /\
  _timeout (super_ (self_after r)) = 60.
Proof.
  intros Hnone Hgrant Hts Hexp HL Hacc. cbv zeta.
  remember (new env a w) as r eqn:Hr.
  rewrite new_stores_token, Hnone in Hr.
  cbn [Session.expiry_seconds truthy_dict] in Hr.
  cbv zeta in Hr. unfold bind at 1 in Hr.
  destruct (construction_first_call a (clock w + timedelta_seconds 0) Hgrant)
    as (Hg & Hcall & Hclient).
  rewrite (get_token_granted env _ w Hg) in Hr. cbv zeta in Hr.
  unfold Session.with_client in Hr. rewrite Hcall, Hclient, Hts in Hr.
  rewrite token_setter_run in Hr.
  cbn [token_lifetime_fraction set_serpens_openid] in Hr.
  rewrite (default_fraction_seconds tok L Hexp HL) in Hr.
  unfold bind, bearer, gets, ret, new_dict, super, assign in Hr. cbn in Hr.
  unfold dict_get in Hr. rewrite Hacc in Hr. cbn in Hr.
  subst r. cbn. repeat split.
  - apply new_events_app. cbn. by rewrite <- app_assoc.
  - unfold Session.headers, headers_of. cbn. by rewrite lookup_insert_eq.
Qed.

(** X17: when the acquisition of a construction raises, the construction
    raises the same exception. *)
Theorem construction_propagates_acquisition_error env a w e :
  arg_token a = None ->
  Built.has_grant a = true ->
  token_service env (trace w ++ [EvGetToken; Built.acquisition a])
    = Raises e ->
  value (new env a w) = Raises e.
Proof.
  intros Hnone Hgrant Hts.
  rewrite new_stores_token, Hnone. cbn [Session.expiry_seconds truthy_dict].
  cbv zeta. unfold bind at 1.
  destruct (construction_first_call a (clock w + timedelta_seconds 0) Hgrant)
    as (Hg & Hcall & Hclient).
  rewrite (get_token_granted env _ w Hg). cbv zeta.
  by rewrite Hcall, Hts.
Qed.

(** ** The verbs of the session *)

(** X18: [send_put] and [send_delete] of a session are the methods of
    the transport: also at or after the expiry they make no TokenService
    call and send their request at once, with the headers the session
    holds. *)
Theorem inherited_verbs_skip_refresh env v path data kwargs s w :
  v = PUT \/ v = DELETE ->
  let r := send env v path data kwargs s w in
  let rq := Session.issued env v path data kwargs s w in
  new_events w r = [EvHttp rq] /\
  count is_ts_call (new_events w r) = 0%nat /\
  rq_headers rq = Session.headers s w /\
  self_after r = s /\
  value r = match network env (trace w ++ [EvHttp rq]) with
            | Returns response => Returns (Some response)
            | Raises e => if is_Exception e then Returns None else Raises e
            end.
Proof.
  intros Hv. cbv zeta.
  rewrite (session_send_inherited env v path data kwargs s w Hv), delegated_run.
  cbv zeta.
  rewrite (new_events_app w _
             [EvHttp (Session.issued env v path data kwargs s w)])
    by reflexivity.
  repeat split.
Qed.

Lemma token_setter_frame assigned s w :
  super_ (self_after (token_setter assigned s w)) = super_ s.
Proof.
  rewrite token_setter_run.
  destruct (Session.expiry_seconds (token_lifetime_fraction s) assigned);
    reflexivity.
Qed.

Lemma get_token_frame env s w :
  super_ (self_after (get_token env s w)) = super_ s /\
  heap (world_after (get_token env s w)) = heap w.
Proof.
  rewrite get_token_run.
  destruct (Session.grant_type_of s); cbn.
  - by rewrite token_setter_frame, token_setter_world.
  - destruct (token_service env _); cbn; [|by split].
    by rewrite token_setter_frame, token_setter_world.
Qed.

(** Refresh and acquisition leave the attributes of the transport and
    the store of headers as they were. *)
Lemma refresh_or_acquire_frame env s w :
  super_ (self_after (refresh_or_acquire env s w)) = super_ s /\
  heap (world_after (refresh_or_acquire env s w)) = heap w.
Proof.
  rewrite refresh_or_acquire_run.
  destruct (Session.has_refresh_token s); [|apply get_token_frame].
  cbn. destruct (token_service env _) as [tok|e]; cbn.
  - by rewrite token_setter_frame, token_setter_world.
  - destruct (is_rejection e); [|by split].
    destruct (get_token_frame env (Session.with_client s)
                (after_call env (Session.refresh_call s) w)) as [-> ->].
    by split.
Qed.

(** X19: no verb call changes the headers of a session: the
    [Authorization] header set at construction is the one the session
    holds after every call, also after a refresh or an acquisition has
    replaced the token. *)
Theorem session_headers_never_change env v path data kwargs s w :
  let r := send env v path data kwargs s w in
  super_ (self_after r) = super_ s /\
  heap (world_after r) = heap w /\
  Session.headers (self_after r) (world_after r) = Session.headers s w.
Proof.
  cbv zeta.
  assert (super_ (self_after (send env v path data kwargs s w)) = super_ s /\
          heap (world_after (send env v path data kwargs s w)) = heap w)
    as [Hsuper Hheap].
  { destruct (Z.ltb_spec (clock w) (_expires_at s)) as [Hfresh|Hexp].
    - rewrite (session_send_fresh env v path data kwargs s w Hfresh).
      by split.
    - destruct v.
      + rewrite (session_send_expired env GET path data kwargs s w Hexp)
          by (by left).
        apply refresh_or_acquire_frame.
      + rewrite (session_send_expired env POST path data kwargs s w Hexp)
          by (by right).
        apply refresh_or_acquire_frame.
      + rewrite (session_send_inherited env PUT path data kwargs s w)
          by (by left).
        rewrite delegated_run. by split.
      + rewrite (session_send_inherited env DELETE path data kwargs s w)
          by (by right).
        rewrite delegated_run. by split. }
  repeat split; [exact Hsuper|exact Hheap|].
  unfold Session.headers, headers_of. by rewrite Hsuper, Hheap.
Qed.

(** X20: when the refresh of a verb called at the expiry succeeds, the
    new token is stored with its expiry before the call raises; the
    session is then within the new lifetime, so its next verb call sends
    its request without refreshing, and that request carries the headers
    the session had before the refresh: the new access token is not
    sent. *)
Theorem refreshed_token_is_not_sent
    env s w (tok : pydict) L v path data kwargs v' path' data' kwargs' :
  Session.has_refresh_token s = true ->
  token_service env (trace w ++ [Session.refresh_call s]) = Returns tok ->
  tok !! "expires_in" = Some (PyInt L) ->
  token_lifetime_fraction s = default_token_lifetime_fraction ->
  2 <= L < Z.pos checked_lifetimes ->
  _expires_at s <= clock w ->
  v = GET \/ v = POST ->
  let r := send env v path data kwargs s w in
  let r' := send env v' path' data' kwargs' (self_after r) (world_after r) in
  value r = Raises (AttributeError "add_param_headers") /\
  _token (self_after r) = Some tok /\
  clock (world_after r) < _expires_at (self_after r) /\
  exists rq,
    new_events (world_after r) r' = [EvHttp rq] /\
    rq_headers rq = Session.headers s w.
Proof.
  intros Hrt Hts Hlookup Hf HL Hexp Hv. cbv zeta.
  remember (send env v path data kwargs s w) as r eqn:Hr.
  rewrite (session_send_expired env v path data kwargs s w Hexp Hv) in Hr.
  unfold Session.refresh_error in Hr.
  assert (refresh_or_acquire env s w
          = MkRun (Returns tt)
              (Session.stored (Some tok)
                 (clock (after_call env (Session.refresh_call s) w))
                 (9 * L / 10) (Session.with_client s))
              (after_call env (Session.refresh_call s) w)) as Hrun.
  { rewrite refresh_or_acquire_run, Hrt. cbn. rewrite Hts.
    rewrite token_setter_run.
    assert (token_lifetime_fraction (Session.with_client s)
            = default_token_lifetime_fraction) as -> by (by destruct s).
    rewrite (default_fraction_seconds tok L Hlookup); [reflexivity|lia]. }
  rewrite Hrun in Hr. cbn in Hr. subst r. cbn [value self_after world_after].
  set (s1 := Session.stored _ _ _ _).
  set (w1 := after_call _ _ _).
  assert (clock w1 < _expires_at s1) as Hfresh.
  { subst s1 w1. cbn. unfold timedelta_seconds.
    assert (1 <= 9 * L / 10) by (apply Z.div_le_lower_bound; lia). lia. }
  repeat split; [exact Hfresh|].
  exists (Session.issued env v' path' data' kwargs' s1 w1). split.
  - rewrite (session_send_fresh env v' path' data' kwargs' s1 w1 Hfresh).
    apply new_events_app. reflexivity.
  - subst s1 w1. unfold Session.issued, Session.headers, headers_of.
    by destruct s.
Qed.

(** ** The rejection *)

Lemma prefix_split needle haystack :
  String.prefix needle haystack = true <->
  exists rest, haystack = needle +:+ rest.
Proof.
  revert haystack. induction needle as [|c needle IH]; intros haystack.
  - split; [intros _; by exists haystack|intros _; by destruct haystack].
  - destruct haystack as [|c' haystack]; cbn.
    + split; [discriminate|]. intros [rest Hrest]. discriminate Hrest.
    + destruct (Ascii.ascii_dec c c') as [->|Hne].
      * rewrite IH. split; intros [rest Hrest]; exists rest.
        -- cbn. by rewrite Hrest.
        -- cbn in Hrest. by inversion Hrest.
      * split; [discriminate|]. intros [rest Hrest]. cbn in Hrest.
        inversion Hrest. by subst.
Qed.

(** [contains] is the test for a contiguous part. *)
Lemma contains_split needle haystack :
  contains needle haystack = true <->
  exists before after, haystack = before +:+ needle +:+ after.
Proof.
  induction haystack as [|c haystack IH]; cbn [contains].
  - rewrite orb_false_r, prefix_split. split.
    + intros [rest Hrest]. by exists "", rest.
    + intros (before & rest & Hsplit).
      destruct before; [by exists rest|discriminate].
  - rewrite orb_true_iff, prefix_split, IH. split.
    + intros [[rest Hrest]|(before & rest & Hsplit)].
      * by exists "", rest.
      * exists (String c before), rest. cbn. by rewrite Hsplit.
    + intros (before & rest & Hsplit). destruct before as [|c' before].
      * left. by exists rest.
      * right. exists before, rest. cbn in Hsplit. by inversion Hsplit.
Qed.

(** X21: a failed refresh falls back to [get_token] exactly when the
    exception is a [SerpensPostError] with status 400 whose body has, as
    a contiguous part and in this spelling, "Refresh token expired",
    "Token is not active" or "Session not active". *)
Theorem rejection_condition e :
  is_rejection e = true <->
  exists body phrase before after,
    e = SerpensPostError 400 body /\
    phrase ∈ ["Refresh token expired"; "Token is not active";
              "Session not active"] /\
    body = before +:+ phrase +:+ after.
Proof.
  unfold is_rejection. split.
  - destruct e as [| | | | |code body| | |]; try discriminate.
    intros Hrej. apply andb_prop in Hrej as [Hcode Hany].
    apply Z.eqb_eq in Hcode as ->.
    apply existsb_exists in Hany as (phrase & Hin & Hcontains).
    apply contains_split in Hcontains as (before & rest & Hsplit).
    exists body, phrase, before, rest. repeat split; [|exact Hsplit].
    by apply list_elem_of_In.
  - intros (body & phrase & before & rest & -> & Hin & Hsplit).
    rewrite Z.eqb_refl. cbn [andb].
    apply existsb_exists. exists phrase. split.
    + by apply list_elem_of_In.
    + apply contains_split. by exists before, rest.
Qed.

(** * Further properties of the transport: rebinding and bodies *)

Lemma fresh_is_not_allocated (w : World) (l : loc) :
  is_Some (heap w !! l) -> fresh (dom (heap w)) <> l.
Proof.
  intros Hsome Heq.
  apply (is_fresh (dom (heap w))).
  rewrite Heq. by apply elem_of_dom.
Qed.

(** X22: [clean_headers] rebinds the attribute to a new, empty mapping:
    every key then reads as [None] and the next request carries no
    header, while the mapping held before keeps its entries for whoever
    else holds it. *)
Theorem clean_headers_rebinds
    env v path data kwargs key (s : SerpensConnectionManager) w :
  is_Some (heap w !! _headers s) ->
  let r := ConnectionManager.clean_headers s w in
  let s' := self_after r in
  let w' := world_after r in
  value r = Returns tt /\
  _headers s' <> _headers s /\
  headers_of s' w' = ∅ /\
  value (ConnectionManager.get_param_headers key s' w') = Returns None /\
  value (ConnectionManager.has_param_headers key s' w') = Returns false /\
  headers_of s w' = headers_of s w /\
  exists rq,
    new_events w' (ConnectionManager.send env v path data kwargs s' w')
      = [EvHttp rq] /\
    rq_headers rq = ∅.
Proof.
  intros Hsome. cbv zeta.
  pose proof (fresh_is_not_allocated w (_headers s) Hsome) as Hfresh.
  unfold headers_of. cbn. rewrite !lookup_insert_eq. cbn.
  rewrite lookup_insert_ne by exact Hfresh.
  repeat split; [exact Hfresh|].
  eexists. split.
  - rewrite transport_send. apply new_events_app. reflexivity.
  - cbn. by rewrite lookup_insert_eq.
Qed.

(** X23: [send_delete] never sends an absent or empty body: data that is
    [None], an empty string or an empty dictionary is replaced by an
    empty dictionary, so the three calls issue the same request, and
    other data is sent as it is; [send_put] sends its data as given. *)
Theorem delete_replaces_empty_body env path data kwargs s w :
  let sent v d := rq_data (ConnectionManager.issued env v path d kwargs s w) in
  new_events w (ConnectionManager.send_delete env path data kwargs s w)
    = [EvHttp (ConnectionManager.issued env DELETE path data kwargs s w)] /\
  sent DELETE data <> Some DataNone /\
  sent DELETE data <> Some (DataStr "") /\
  sent DELETE DataNone = Some (DataDict []) /\
  sent DELETE (DataStr "") = Some (DataDict []) /\
  sent DELETE (DataDict []) = Some (DataDict []) /\
  sent DELETE data = (if truthy_data data then Some data
                      else sent DELETE DataNone) /\
  sent PUT data = Some data.
Proof.
  cbv zeta. split.
  - change (ConnectionManager.send_delete env path data kwargs s w)
      with (ConnectionManager.send env DELETE path data kwargs s w).
    rewrite transport_send. apply new_events_app. reflexivity.
  - cbn. destruct data as [|[|c str]|[|kv rest]]; cbn; repeat split;
      discriminate.
Qed.

(** * The further properties at concrete objects *)

Module Import Shown.

Import Scenario Cases.

(** A transport built right after the import of the module holds no
    header: removing one leaves its headers as they were. *)
Lemma header_remove_absent_witness :
  let built := ConnectionManager.new "https://a.example/" None None None
                 module_imported in
  headers_of (self_after built)
    (world_after
       (ConnectionManager.remove_param_headers "X-Trace" (self_after built)
          (world_after built)))
  = headers_of (self_after built) (world_after built).
Proof.
  apply (header_remove_absent "X-Trace"
           (self_after (ConnectionManager.new "https://a.example/"
                          None None None module_imported))
           (world_after (ConnectionManager.new "https://a.example/"
                           None None None module_imported))).
  reflexivity.
Defined.

(** A request interrupted from the keyboard: [send_get] raises
    [KeyboardInterrupt]. *)
Lemma transport_does_not_catch_interrupt_witness :
  value (ConnectionManager.send env_interrupted GET "users" DataNone []
           (super_ (session env_interrupted)) (later env_interrupted 10))
  = Raises KeyboardInterrupt.
Proof.
  apply (transport_does_not_catch_interrupt env_interrupted GET "users"
           DataNone [] (super_ (session env_interrupted))
           (later env_interrupted 10) KeyboardInterrupt);
    reflexivity.
Defined.

(** A session that holds a token and has lost its credentials:
    [get_token] leaves it without token. *)
Lemma get_token_without_grant_forgets_token_witness :
  _token session_without_grant = Some (token_of 300) /\
  _token (self_after (get_token env_up session_without_grant (later env_up 10)))
  = None.
Proof.
  split; [reflexivity|].
  rewrite (get_token_without_grant_forgets_token env_up session_without_grant
             (later env_up 10));
    reflexivity.
Defined.

(** A token endpoint that answers 500: [get_token] raises that error and
    the session keeps its token. *)
Lemma get_token_failure_keeps_token_witness :
  let r := get_token env_down (session env_down) (later env_down 300) in
  value r = Raises server_error /\
  _token (self_after r) = Some (token_of 300).
Proof.
  cbv zeta.
  destruct (get_token_failure_keeps_token env_down (session env_down)
              (later env_down 300) server_error)
    as (Hvalue & Htoken & _); [reflexivity | reflexivity |].
  split; [exact Hvalue|]. rewrite Htoken. reflexivity.
Defined.

(** A token of 300 seconds acquired by a call that took a millisecond,
    300 seconds after the session was built at instant 0. *)
Lemma acquired_token_is_stored_witness :
  _expires_at
    (self_after (get_token env_up (session env_up) (later env_up 300)))
  = 300000000 + 1000 + 270000000.
Proof.
  destruct (acquired_token_is_stored env_up (session env_up)
              (later env_up 300) token_acquired 300)
    as (_ & _ & Hexpiry);
    [reflexivity | reflexivity | reflexivity | reflexivity | by vm_compute |].
  rewrite Hexpiry. reflexivity.
Defined.

(** The realm of the session is changed after the first use of the
    client: the client keeps the realm it was built with. *)
Lemma token_client_is_built_once_witness :
  value (serpens_openid
           (set_realm_name (Some "tenants")
              (self_after (serpens_openid (session env_up) (later env_up 10))))
           (later env_up 20))
  = value (serpens_openid (session env_up) (later env_up 10)).
Proof.
  apply (token_client_is_built_once (session env_up) (later env_up 10)
           (set_realm_name (Some "tenants")) (later env_up 20)).
  reflexivity.
Defined.

(** A session constructed on a token whose access token is "a1". *)
Lemma construction_on_token_witness :
  let r := new env_up (args (Some (token_of 300)) 60) module_imported in
  Session.headers (self_after r) (world_after r) = Built.headers_for "a1" /\
  trace (world_after r) = [].
Proof.
  cbv zeta.
  destruct (construction_on_token env_up (args (Some (token_of 300)) 60)
              module_imported (token_of 300) 300 "a1")
    as (_ & Htrace & _ & _ & Hheaders & _);
    [reflexivity | reflexivity | by vm_compute | reflexivity |].
  split; [exact Hheaders|exact Htrace].
Defined.

(** A construction on a token without [access_token]. *)
Lemma construction_needs_access_token_witness :
  value (new env_up (args (Some token_without_access) 60) module_imported)
  = Raises (TypeError "can only concatenate str to str").
Proof.
  refine (proj1 (construction_needs_access_token env_up
                   (args (Some token_without_access) 60) module_imported
                   token_without_access 270 _ _ _)).
  - reflexivity.
  - vm_compute. reflexivity.
  - intros t Hlookup. vm_compute in Hlookup. discriminate Hlookup.
Defined.

(** A token without [expires_in], assigned to a session that holds
    another: the token is replaced, the expiry is not. *)
Lemma token_without_lifetime_is_half_stored_witness :
  let r := token_setter (Some token_without_lifetime) (session env_up)
             (later env_up 10) in
  value r = Raises (KeyError "expires_in") /\
  _token (self_after r) = Some token_without_lifetime /\
  _expires_at (self_after r) = 270000000.
Proof.
  cbv zeta.
  destruct (token_without_lifetime_is_half_stored env_up
              (args (Some token_without_lifetime) 60) token_without_lifetime
              (session env_up) (later env_up 10))
    as (Hvalue & Htoken & Hexpiry & _).
  - intros Hempty.
    apply (f_equal (fun d : pydict => d !! "access_token")) in Hempty.
    vm_compute in Hempty. discriminate Hempty.
  - reflexivity.
  - split; [exact Hvalue|]. split; [exact Htoken|].
    rewrite Hexpiry. reflexivity.
Defined.

(** A construction with a client secret, a username and a password, and
    a timeout of 30: the token is acquired with the grant
    [client_credentials] through a client of timeout 30. *)
Lemma construction_acquires_token_witness :
  let r := new env_up args_with_secret module_imported in
  new_events module_imported r
  = [EvGetToken;
     EvTokenCall
       {| oid_server_url := "https://sso.example/";
          oid_client_id := Some "admin-cli";
          oid_realm_name := "master";
          oid_verify := true;
          oid_client_secret_key := Some "s3cr3t";
          oid_timeout := 30 |}
       (Some "admin") (Some "secret") ["client_credentials"] (Some "123456")] /\
  Session.headers (self_after r) (world_after r) = Built.headers_for "a2" /\
  _timeout (super_ (self_after r)) = 60.
Proof.
  cbv zeta.
  destruct (construction_acquires_token env_up args_with_secret
              module_imported token_acquired 300 "a2")
    as (_ & Hevents & _ & _ & _ & Hheaders & Htimeout);
    [reflexivity | reflexivity | reflexivity | reflexivity | by vm_compute
    | reflexivity |].
  split; [rewrite Hevents; reflexivity|].
  split; [exact Hheaders|exact Htimeout].
Defined.

(** The same construction against a token endpoint that answers 500. *)
Lemma construction_propagates_acquisition_error_witness :
  value (new env_down args_with_secret module_imported) = Raises server_error.
Proof.
  apply (construction_propagates_acquisition_error env_down args_with_secret
           module_imported server_error);
    reflexivity.
Defined.

(** [send_put] on a session whose token has expired: one request, no
    TokenService call. *)
Lemma inherited_verbs_skip_refresh_witness :
  let r := send env_up PUT "users/7" (DataStr "{}") []
             (session env_up) (later env_up 300) in
  _expires_at (session env_up) <= clock (later env_up 300) /\
  count is_ts_call (new_events (later env_up 300) r) = 0%nat /\
  value r = Returns (Some ok).
Proof.
  cbv zeta.
  destruct (inherited_verbs_skip_refresh env_up PUT "users/7" (DataStr "{}") []
              (session env_up) (later env_up 300))
    as (_ & Hcount & _ & _ & Hvalue); [by left|].
  split; [by vm_compute|]. split; [exact Hcount|].
  rewrite Hvalue. reflexivity.
Defined.

(** A session on the access token "a1" whose refresh returns the access
    token "a2": the request that follows carries "Bearer a1". *)
Lemma refreshed_token_is_not_sent_witness :
  let r := send env_up GET "users" DataNone []
             (session env_up) (later env_up 300) in
  let r' := send env_up GET "users" DataNone []
              (self_after r) (world_after r) in
  dict_get token_acquired "access_token" = PyStr "a2" /\
  _token (self_after r) = Some token_acquired /\
  exists rq,
    new_events (world_after r) r' = [EvHttp rq] /\
    rq_headers rq !! "Authorization" = Some "Bearer a1".
Proof.
  cbv zeta.
  destruct (refreshed_token_is_not_sent env_up (session env_up)
              (later env_up 300) token_acquired 300
              GET "users" DataNone [] GET "users" DataNone [])
    as (_ & Htoken & _ & rq & Hevents & Hheaders);
    [reflexivity | reflexivity | reflexivity | reflexivity | by vm_compute
    | by vm_compute | by left |].
  split; [reflexivity|]. split; [exact Htoken|].
  exists rq. split; [exact Hevents|]. rewrite Hheaders. reflexivity.
Defined.

(** A transport built right after the import of the module, which holds
    the default mapping, is cleaned after a header was set. *)
Lemma clean_headers_rebinds_witness :
  let built := ConnectionManager.new "https://a.example/" None None None
                 module_imported in
  let s := self_after built in
  let w := world_after (ConnectionManager.set_param_headers "X-Trace" "on" s
                          (world_after built)) in
  let r := ConnectionManager.clean_headers s w in
  value (ConnectionManager.get_param_headers "X-Trace" (self_after r)
           (world_after r)) = Returns None /\
  value (ConnectionManager.get_param_headers "X-Trace" s (world_after r))
    = Returns (Some "on").
Proof.
  cbv zeta.
  destruct (clean_headers_rebinds env_up GET "users" DataNone [] "X-Trace"
              (self_after (ConnectionManager.new "https://a.example/"
                             None None None module_imported))
              (world_after
                 (ConnectionManager.set_param_headers "X-Trace" "on"
                    (self_after (ConnectionManager.new "https://a.example/"
                                   None None None module_imported))
                    (world_after (ConnectionManager.new "https://a.example/"
                                    None None None module_imported)))))
    as (_ & _ & _ & Hread & _); [by eexists|].
  split; [exact Hread|reflexivity].
Defined.

End Shown.
